(** * LowFormer: the ImageNet data provider

    A shallow embedding of [lowformer/clscore/data_provider/imagenet.py]:
    the constructor of [ImageNetDataProvider], its two transform builders
    and [build_datasets], followed by the properties of the specification
    that concern them.

    Python values are modelled as they are at run time: integers as [Z],
    floats as IEEE-754 binary64 numbers ([spec_float] with 53 bits of
    precision), dictionaries as finite maps from strings, exceptions as an
    error result.  Mutable dictionaries live in a heap of objects, so that
    the class-level default configuration and its copies are distinct
    objects. *)

From Stdlib Require Import ZArith Lia Bool Ascii String SpecFloat.
From stdpp Require Import gmap strings list.

Open Scope Z_scope.

(** ** Python floats *)

Module Float64.

Definition prec : Z := 53.
Definition emax : Z := 1024.

Definition zero : spec_float := S754_zero false.
Definition one : spec_float := S754_finite false 4503599627370496 (-52).

(** [float(z)] for an integer that is in range. *)
Definition of_int (z : Z) : spec_float := binary_normalize prec emax z 0 false.

Definition div : spec_float -> spec_float -> spec_float := SFdiv prec emax.
Definition leb : spec_float -> spec_float -> bool := SFleb.
Definition ltb : spec_float -> spec_float -> bool := SFltb.
Definition valid : spec_float -> bool := valid_binary prec emax.

Definition is_finite (f : spec_float) : bool :=
  match f with
  | S754_zero _ | S754_finite _ _ _ => true
  | S754_infinity _ | S754_nan => false
  end.

(** Exponent at which a mantissa [m], given at exponent [e], is kept by
    the rounding shift of [binary_round_aux]. *)
Definition kept_exp (m e : Z) : Z :=
  Z.max e (Z.max (Zdigits2 m + e - 53) (-1074)).

End Float64.

(** ** Python values, exceptions and dictionaries *)

Inductive exn : Type :=
| NotImplementedError
| KeyError (key : string)
| TypeError
| ZeroDivisionError
| OverflowError
| ValueError
| FileNotFoundError (path : string).

Inductive result (A : Type) : Type :=
| Ok (a : A)
| Raise (e : exn).

Arguments Ok {A} a.
Arguments Raise {A} e.

(** The scalars that occur in the configuration dictionaries. *)
Inductive pyval : Type :=
| VInt (z : Z)
| VFloat (f : spec_float)
| VStr (s : string).

Abbreviation dict := (gmap string pyval).

Definition result_bind {A B : Type} (r : result A) (k : A -> result B) : result B :=
  match r with
  | Ok a => k a
  | Raise e => Raise e
  end.

Declare Scope result_scope.
Delimit Scope result_scope with result.
Notation "x <- c ;; k" := (result_bind c (fun x => k))
  (at level 62, c at next level, right associativity) : result_scope.

(** [d[k]] *)
Definition getitem (d : dict) (k : string) : result pyval :=
  match d !! k with
  | Some v => Ok v
  | None => Raise (KeyError k)
  end.

(** [v == s] for a string literal [s] *)
Definition py_eq_str (v : pyval) (s : string) : bool :=
  match v with
  | VStr t => String.eqb t s
  | _ => false
  end.

(** [float(z)]; an integer that rounds to infinity cannot be converted. *)
Definition float_of_int (z : Z) : result spec_float :=
  match Float64.of_int z with
  | S754_infinity _ => Raise OverflowError
  | f => Ok f
  end.

(** [x / y] on floats: a zero divisor raises, overflow yields infinity. *)
Definition float_truediv (x y : spec_float) : result spec_float :=
  match y with
  | S754_zero _ => Raise ZeroDivisionError
  | _ => Ok (Float64.div x y)
  end.

(** [a / b] on integers: the correctly rounded quotient. *)
Definition int_truediv (a b : Z) : result spec_float :=
  if b =? 0 then Raise ZeroDivisionError
  else if a =? 0 then Ok (S754_zero (b <? 0))
  else
    let '(q, e, l) :=
      SFdiv_core_binary Float64.prec Float64.emax (Z.abs a) 0 (Z.abs b) 0 in
    match binary_round_aux Float64.prec Float64.emax (xorb (a <? 0) (b <? 0)) q e l with
    | S754_infinity _ => Raise OverflowError
    | f => Ok f
    end.

(** [n / v] for an integer [n] *)
Definition truediv (n : Z) (v : pyval) : result spec_float :=
  match v with
  | VInt k => int_truediv n k
  | VFloat f => (x <- float_of_int n ;; float_truediv x f)%result
  | VStr _ => Raise TypeError
  end.

(** [math.ceil(f)]; [int(...)] of the integer it returns is the identity. *)
Definition math_ceil (f : spec_float) : result Z :=
  match f with
  | S754_nan => Raise ValueError
  | S754_infinity _ => Raise OverflowError
  | S754_zero _ => Ok 0
  | S754_finite s m e =>
      let v := cond_Zopp s (Zpos m) in
      Ok (if 0 <=? e then v * 2 ^ e else - ((- v) / 2 ^ (- e)))
  end.

(** [needle in hay] on strings *)
Fixpoint str_contains (needle hay : string) : bool :=
  String.prefix needle hay
  || match hay with
     | EmptyString => false
     | String _ rest => str_contains needle rest
     end.

Fixpoint ends_with_sep (s : string) : bool :=
  match s with
  | EmptyString => false
  | String c EmptyString => Ascii.eqb c "/"%char
  | String _ rest => ends_with_sep rest
  end.

(** [os.path.join(a, b)] on a POSIX system *)
Definition os_path_join (a b : string) : string :=
  if String.prefix "/" b then b
  else if String.eqb a "" || ends_with_sep a then a +:+ b
  else a +:+ "/" +:+ b.

(** ** Transforms and datasets *)

(** torchvision's interpolation modes *)
Inductive InterpolationMode : Type :=
| NEAREST | NEAREST_EXACT | BILINEAR | BICUBIC | BOX | HAMMING | LANCZOS.

(** The transform objects the provider instantiates, each with the
    arguments of its constructor call.  [MyRandomResizedCrop] and [RandAug]
    are classes of this repository that only record their arguments here. *)
Inductive transform : Type :=
| MyRandomResizedCrop (interpolation : pyval)
| RandomHorizontalFlip
| RandAug (config : dict) (mean : list spec_float)
| ToTensor
| Normalize (mean std : list spec_float)
| RandomErasing (probability : pyval) (device : string)
| Resize (size : Z) (interpolation : InterpolationMode)
| CenterCrop (size : Z).

(** [transforms.Compose([...])] *)
Abbreviation Compose := (list transform).

(** An [ImageFolder]: the directory it enumerated, the samples found
    there and the transform applied to each image. *)
Record dataset : Type := {
  root : string;
  samples : list (string * Z);
  transform_of : Compose;
}.

(** A single augmentation config or an ordered list of them. *)
Inductive aug_spec : Type :=
| AugOne (op : dict)
| AugList (ops : list dict).

(** ** Objects and state *)

Abbreviation loc := nat.

(** The mutable world: the heap of dictionary objects and the log of the
    directories enumerated so far. *)
Record world : Type := {
  heap : list dict;
  scans : list string;
}.

(** The base class [DataProvider]: the attributes it keeps and the nine
    arguments [__init__] hands to its constructor. *)
Module DataProvider.

Record attrs : Type := {
  image_size : list (Z * Z);
  active_image_size : Z * Z;
  mean : list spec_float;
  std : list spec_float;
}.

Record args : Type := {
  train_batch_size : Z;
  test_batch_size : Z;
  valid_size : option pyval;
  n_worker : Z;
  image_size_arg : Z + list Z;
  num_replicas : option Z;
  rank : option Z;
  train_ratio : option spec_float;
  drop_last : bool;
}.

End DataProvider.

(** The attributes of an [ImageNetDataProvider] instance; [rrc_config]
    refers to a dictionary object in the heap. *)
Record provider : Type := {
  data_dir : string;
  val_dir : string;
  rrc_config : loc;
  n_classes : Z;
  data_aug : option aug_spec;
  base : DataProvider.attrs;
}.

(** Class attributes of [ImageNetDataProvider]. *)
Definition class_name : string := "imagenet".
Definition class_data_dir : string := "/dataset/imagenet".
Definition class_n_classes : Z := 1000.

(** The class-level dictionary [_DEFAULT_RRC_CONFIG] is the first object
    of the heap; this is its content when the class is defined. *)
Definition _DEFAULT_RRC_CONFIG : loc := 0%nat.

Definition default_rrc_config : dict :=
  {[ "train_interpolate" := VStr "random";
     "test_interpolate" := VStr "bicubic";
     "test_crop_ratio" := VFloat Float64.one ]}.

Definition class_world : world :=
  {| heap := [default_rrc_config]; scans := [] |}.

(** Computations that read and write the world and may raise; the world
    reached when an exception is raised is kept. *)
Definition M (A : Type) : Type := world -> result A * world.

Definition ret {A : Type} (a : A) : M A := fun w => (Ok a, w).

Definition bind {A B : Type} (c : M A) (k : A -> M B) : M B :=
  fun w =>
    match c w with
    | (Ok a, w') => k a w'
    | (Raise e, w') => (Raise e, w')
    end.

Definition lift {A : Type} (r : result A) : M A := fun w => (r, w).

Declare Scope prog_scope.
Delimit Scope prog_scope with prog.
Notation "x <- c ;; k" := (bind c (fun x => k))
  (at level 62, c at next level, right associativity) : prog_scope.

(** Read the dictionary object at [l]. *)
Definition deref (l : loc) : M dict :=
  fun w => (Ok (default ∅ (heap w !! l)), w).

(** [copy.deepcopy(d)] of a dictionary of scalars: a new object with the
    same content. *)
Definition deepcopy (l : loc) : M loc :=
  fun w =>
    (Ok (length (heap w)),
     {| heap := heap w ++ [default ∅ (heap w !! l)]; scans := scans w |}).

(** Modelled from the spec: [partial_update_config] of
    [lowformer.apps.utils], which is not part of the sources at hand.  It
    merges [partial_config] onto [config] by shallow key overlay: caller
    keys win, the other keys keep their values.  The overlay is written
    into the object [config] itself, which is returned. *)
Definition partial_update_config (config : loc) (partial_config : dict) : M loc :=
  fun w =>
    (Ok config,
     {| heap := alter (fun d => partial_config ∪ d) config (heap w);
        scans := scans w |}).

(** Modelled from the spec: [val2list] of [lowformer.models.utils] turns a
    single config into a one-element list and keeps a list as it is. *)
Definition val2list (spec : aug_spec) : list dict :=
  match spec with
  | AugOne op => [op]
  | AugList ops => ops
  end.

(** Collaborators whose code is outside this file. *)
Class Collaborators : Type := {
  (** Modelled from the spec: [get_interpolate] of
      [lowformer.apps.data_provider.random_resolution] selects the
      interpolation mode by name and fails on a name it does not know. *)
  get_interpolate : pyval -> result InterpolationMode;
  (** Modelled from the spec: the base constructor [DataProvider.__init__]
      does the shared bookkeeping (batch sizes, workers, image-size
      normalization, replicas and rank) and keeps the resulting
      attributes. *)
  DataProvider_init : DataProvider.args -> DataProvider.attrs;
  (** The directory enumeration of torchvision's [ImageFolder]. *)
  find_samples : string -> result (list (string * Z));
  (** Modelled from the spec: [DataProvider.sample_val_dataset] carves a
      held-out validation subset out of the training data and returns the
      pair (train subset, validation subset). *)
  sample_val_dataset : provider -> dataset -> Compose -> result (dataset * dataset);
}.

(** [x or y] where [x] is a string or [None] *)
Definition str_or (x : option string) (y : string) : string :=
  match x with
  | None | Some EmptyString => y
  | Some s => s
  end.

(** [x or {}] where [x] is a dictionary or [None] *)
Definition dict_or_empty (x : option dict) : dict :=
  match x with
  | None => ∅
  | Some d => if decide (d = ∅) then ∅ else d
  end.

(** [x or y] where [x] is a pair or [None]; a pair is never falsy. *)
Definition size_or (x : option (Z * Z)) (y : Z * Z) : Z * Z :=
  match x with
  | None => y
  | Some s => s
  end.

(** ** The provider *)

Section Provider.

Context `{Collaborators}.

(** [ImageNetDataProvider.__init__] *)
Definition init (data_dir : option string) (rrc_config : option dict)
    (data_aug : option aug_spec) (args : DataProvider.args) (val_dir : string)
    (n_classes : Z) : M provider :=
  (copied <- deepcopy _DEFAULT_RRC_CONFIG ;;
   merged <- partial_update_config copied (dict_or_empty rrc_config) ;;
   ret (Build_provider (str_or data_dir class_data_dir) val_dir merged
          n_classes data_aug (DataProvider_init args)))%prog.

(** [ImageNetDataProvider.build_valid_transform] *)
Definition build_valid_transform (self : provider) (image_size : option (Z * Z))
    : M Compose :=
  (let image_size := fst (size_or image_size (DataProvider.active_image_size (base self))) in
   config <- deref (rrc_config self) ;;
   ratio <- lift (getitem config "test_crop_ratio") ;;
   quotient <- lift (truediv image_size ratio) ;;
   crop_size <- lift (math_ceil quotient) ;;
   name <- lift (getitem config "test_interpolate") ;;
   interpolation <- lift (get_interpolate name) ;;
   ret [ Resize crop_size interpolation;
         CenterCrop image_size;
         ToTensor;
         Normalize (DataProvider.mean (base self)) (DataProvider.std (base self)) ])%prog.

(** The body of the loop over the augmentation configs: the operator for
    the pre-tensor list, if any, and the new [post_aug]. *)
Definition aug_body (self : provider) (aug_op : dict) (post_aug : list transform)
    : result (option transform * list transform) :=
  (name <- getitem aug_op "name" ;;
   if py_eq_str name "randaug" then
     Ok (Some (RandAug aug_op (DataProvider.mean (base self))), post_aug)
   else
     name <- getitem aug_op "name" ;;
     if py_eq_str name "erase" then
       p <- getitem aug_op "p" ;;
       Ok (None, post_aug ++ [RandomErasing p "cpu"])
     else Raise NotImplementedError)%result.

Fixpoint aug_loop (self : provider) (ops : list dict)
    (train_transforms post_aug : list transform)
    : result (list transform * list transform) :=
  match ops with
  | [] => Ok (train_transforms, post_aug)
  | aug_op :: rest =>
      (step <- aug_body self aug_op post_aug ;;
       match fst step with
       | Some data_aug => aug_loop self rest (train_transforms ++ [data_aug]) (snd step)
       | None => aug_loop self rest train_transforms (snd step)
       end)%result
  end.

(** [ImageNetDataProvider.build_train_transform] *)
Definition build_train_transform (self : provider) (image_size : option (Z * Z))
    : M Compose :=
  (let image_size :=
     match image_size with
     | Some size => [size]
     | None => DataProvider.image_size (base self)
     end in
   config <- deref (rrc_config self) ;;
   interpolation <- lift (getitem config "train_interpolate") ;;
   let train_transforms := [MyRandomResizedCrop interpolation; RandomHorizontalFlip] in
   let post_aug := [] in
   lists <- lift (match data_aug self with
                  | Some spec => aug_loop self (val2list spec) train_transforms post_aug
                  | None => Ok (train_transforms, post_aug)
                  end) ;;
   ret (fst lists
          ++ [ToTensor; Normalize (DataProvider.mean (base self)) (DataProvider.std (base self))]
          ++ snd lists))%prog.

(** [ImageFolder(root, transform)]: the directory is enumerated when the
    dataset is constructed. *)
Definition ImageFolder (root : string) (transform : Compose) : M dataset :=
  fun w =>
    let w' := {| heap := heap w; scans := scans w ++ [root] |} in
    match find_samples root with
    | Ok found => (Ok (Build_dataset root found transform), w')
    | Raise e => (Raise e, w')
    end.

(** [ImageNetDataProvider.build_datasets] *)
Definition build_datasets (self : provider) : M (dataset * dataset * dataset) :=
  (train_transform <- build_train_transform self None ;;
   valid_transform <- build_valid_transform self None ;;
   datasets <-
     (if str_contains "21K" (data_dir self) then
        train_dataset <- ImageFolder (data_dir self) train_transform ;;
        test_dataset <- ImageFolder (val_dir self) valid_transform ;;
        ret (train_dataset, test_dataset)
      else
        train_dataset <- ImageFolder (os_path_join (data_dir self) "train") train_transform ;;
        test_dataset <- ImageFolder (os_path_join (data_dir self) "val") valid_transform ;;
        ret (train_dataset, test_dataset)) ;;
   split <- lift (sample_val_dataset self (fst datasets) valid_transform) ;;
   ret (fst split, snd split, snd datasets))%prog.

(** The arguments of one constructor call. *)
Record init_args : Type := {
  arg_data_dir : option string;
  arg_rrc_config : option dict;
  arg_data_aug : option aug_spec;
  arg_base : DataProvider.args;
  arg_val_dir : string;
  arg_n_classes : Z;
}.

Definition construct (a : init_args) : M provider :=
  init (arg_data_dir a) (arg_rrc_config a) (arg_data_aug a) (arg_base a)
    (arg_val_dir a) (arg_n_classes a).

(** The world after a sequence of constructor calls. *)
Fixpoint construct_all (calls : list init_args) (w : world) : world :=
  match calls with
  | [] => w
  | a :: rest => construct_all rest (snd (construct a w))
  end.

(** The configuration dictionary a provider reads. *)
Definition config_of (self : provider) (w : world) : dict :=
  default ∅ (heap w !! rrc_config self).

End Provider.

(** ** A concrete environment

    Collaborators on which the definitions can be run: the interpolation
    modes are found by their lower-case names, the base constructor keeps
    square image sizes and the usual ImageNet statistics, every directory
    but ["/missing"] holds one sample, and the held-out split keeps the
    training data and builds an empty validation set. *)

Definition demo_get_interpolate (name : pyval) : result InterpolationMode :=
  if py_eq_str name "nearest" then Ok NEAREST
  else if py_eq_str name "bilinear" then Ok BILINEAR
  else if py_eq_str name "bicubic" then Ok BICUBIC
  else if py_eq_str name "box" then Ok BOX
  else if py_eq_str name "hamming" then Ok HAMMING
  else if py_eq_str name "lanczos" then Ok LANCZOS
  else Raise NotImplementedError.

Definition decimal (numerator denominator : Z) : spec_float :=
  Float64.div (Float64.of_int numerator) (Float64.of_int denominator).

Definition demo_init (a : DataProvider.args) : DataProvider.attrs :=
  let sizes :=
    match DataProvider.image_size_arg a with
    | inl n => [(n, n)]
    | inr l => (fun n => (n, n)) <$> l
    end in
  {| DataProvider.image_size := sizes;
     DataProvider.active_image_size := List.last sizes (224, 224);
     DataProvider.mean := [decimal 485 1000; decimal 456 1000; decimal 406 1000];
     DataProvider.std := [decimal 229 1000; decimal 224 1000; decimal 225 1000] |}.

Definition demo_find_samples (dir : string) : result (list (string * Z)) :=
  if String.eqb dir "/missing" then Raise (FileNotFoundError dir)
  else Ok [(os_path_join dir "n01440764/0.JPEG", 0)].

Definition demo_sample_val (self : provider) (train : dataset) (valid_transform : Compose)
    : result (dataset * dataset) :=
  Ok (train, Build_dataset (root train) [] valid_transform).

Definition demo : Collaborators :=
  {| get_interpolate := demo_get_interpolate;
     DataProvider_init := demo_init;
     find_samples := demo_find_samples;
     sample_val_dataset := demo_sample_val |}.

Definition demo_args : DataProvider.args :=
  {| DataProvider.train_batch_size := 128;
     DataProvider.test_batch_size := 128;
     DataProvider.valid_size := None;
     DataProvider.n_worker := 8;
     DataProvider.image_size_arg := inl 224;
     DataProvider.num_replicas := None;
     DataProvider.rank := None;
     DataProvider.train_ratio := None;
     DataProvider.drop_last := false |}.


(** A provider constructed in the class world with the concrete
    collaborators, and the world the constructor leaves. *)
Definition demo_provider (data_dir : option string) (rrc_config : option dict)
    (data_aug : option aug_spec) (val_dir : string) : provider * world :=
  let outcome := @init demo data_dir rrc_config data_aug demo_args val_dir 1000 class_world in
  (match fst outcome with
   | Ok self => self
   | Raise _ => Build_provider "" "" 0 0 None (demo_init demo_args)
   end,
   snd outcome).

(** [-1.0], the smallest positive float and [2 ** 53 + 1] *)
Definition minus_one : spec_float := S754_finite true 4503599627370496 (-52).
Definition tiny : spec_float := S754_finite false 1 (-1074).
Definition big_size : Z := 9007199254740993.


(** The pipelines and datasets of the examples. *)
Definition demo_mean : list spec_float := DataProvider.mean (demo_init demo_args).
Definition demo_std : list spec_float := DataProvider.std (demo_init demo_args).

Definition nine_tenths : spec_float := decimal 9 10.

Definition randaug_op : dict := {[ "name" := VStr "randaug"; "n" := VInt 1; "m" := VInt 3 ]}.
Definition erase_op : dict := {[ "name" := VStr "erase"; "p" := VFloat (decimal 2 10) ]}.
Definition cutmix_op : dict := {[ "name" := VStr "cutmix" ]}.

Definition demo_train_transform : Compose :=
  [ MyRandomResizedCrop (VStr "random"); RandomHorizontalFlip;
    ToTensor; Normalize demo_mean demo_std ].

Definition demo_valid_transform : Compose :=
  [ Resize 224 BICUBIC; CenterCrop 224; ToTensor; Normalize demo_mean demo_std ].


(** ** Vocabulary of the properties *)

(** The class-level default configuration is as the class defines it. *)
Definition class_ok (w : world) : Prop :=
  heap w !! _DEFAULT_RRC_CONFIG = Some default_rrc_config.

(** The provider's configuration holds every key of the default one. *)
Definition configured (self : provider) (w : world) : Prop :=
  forall k, is_Some (default_rrc_config !! k) -> is_Some (config_of self w !! k).

(** The augmentation configs of a provider, in order. *)
Definition aug_ops (self : provider) : list dict :=
  match data_aug self with
  | Some spec => val2list spec
  | None => []
  end.

(** The config names the operator [kind]. *)
Definition is_op (kind : string) (op : dict) : bool :=
  match op !! "name" with
  | Some name => py_eq_str name kind
  | None => false
  end.


(** [t] is the random-erasing operator built from the config [op]. *)
Definition erasure_of (op : dict) (t : transform) : Prop :=
  exists p, op !! "p" = Some p /\ t = RandomErasing p "cpu".

(** The two directories [build_datasets] reads: training data first. *)
Definition layout (self : provider) : string * string :=
  if str_contains "21K" (data_dir self)
  then (data_dir self, val_dir self)
  else (os_path_join (data_dir self) "train", os_path_join (data_dir self) "val").


(** The error the loop body raises on a config, if any: a missing name, an
    erase config without its probability, or a name that is not known. *)
Definition op_error (op : dict) : option exn :=
  match op !! "name" with
  | None => Some (KeyError "name")
  | Some name =>
      if py_eq_str name "randaug" then None
      else if py_eq_str name "erase" then
        match op !! "p" with
        | Some _ => None
        | None => Some (KeyError "p")
        end
      else Some NotImplementedError
  end.

(** The error of the first config that has one. *)
Fixpoint first_error (ops : list dict) : option exn :=
  match ops with
  | [] => None
  | op :: rest =>
      match op_error op with
      | Some e => Some e
      | None => first_error rest
      end
  end.

(** The random-erasing operators of the erase configs, in order. *)
Fixpoint erasures_of (ops : list dict) : list transform :=
  match ops with
  | [] => []
  | op :: rest =>
      match (if is_op "erase" op then op !! "p" else None) with
      | Some p => RandomErasing p "cpu" :: erasures_of rest
      | None => erasures_of rest
      end
  end.

(** The training pipeline written as a whole: the geometric operators, the
    randaug operators, tensor conversion, normalization, the erasures. *)
Definition train_pipeline (self : provider) (interpolation : pyval) (ops : list dict)
    : Compose :=
  [MyRandomResizedCrop interpolation; RandomHorizontalFlip]
    ++ List.map (fun op => RandAug op (DataProvider.mean (base self)))
         (List.filter (is_op "randaug") ops)
    ++ [ToTensor; Normalize (DataProvider.mean (base self)) (DataProvider.std (base self))]
    ++ erasures_of ops.

(** A config the loop accepts: a randaug config, or an erase config that
    has its probability. *)
Definition well_formed_op (op : dict) : bool :=
  is_op "randaug" op
  || (is_op "erase" op && match op !! "p" with Some _ => true | None => false end).

(** The float is zero or below. *)
Definition not_positive (f : spec_float) : bool :=
  match f with
  | S754_zero _ => true
  | S754_finite s _ _ | S754_infinity s => s
  | S754_nan => false
  end.


(** The value is the integer zero or a float zero of either sign. *)
Definition is_zero (v : pyval) : bool :=
  match v with
  | VInt 0 => true
  | VFloat (S754_zero _) => true
  | _ => false
  end.


(** One more constructor call, and collaborators for which no directory
    can be enumerated. *)
Definition demo_call : init_args :=
  {| arg_data_dir := Some "/data/other";
     arg_rrc_config := Some {[ "test_crop_ratio" := VFloat nine_tenths ]};
     arg_data_aug := None;
     arg_base := demo_args;
     arg_val_dir := "";
     arg_n_classes := 1000 |}.

Definition offline : Collaborators :=
  {| get_interpolate := demo_get_interpolate;
     DataProvider_init := demo_init;
     find_samples := fun dir => Raise (FileNotFoundError dir);
     sample_val_dataset := demo_sample_val |}.



(** A negative float so small that dividing a size by it overflows. *)
Definition minus_tiny : spec_float := S754_finite true 1 (-1074).


(** * Properties *)

(** ** Facts about binary64 rounding *)

Module Float64Facts.

Import Float64.

Lemma digits2_pos_bounds (p : positive) :
  2 ^ (Zpos (digits2_pos p) - 1) <= Zpos p < 2 ^ Zpos (digits2_pos p).
Proof.
  induction p as [p IH | p IH |]; cbn [digits2_pos].
  - rewrite Pos2Z.inj_succ.
    replace (Z.succ (Zpos (digits2_pos p)) - 1) with (Z.succ (Zpos (digits2_pos p) - 1)) by lia.
    rewrite !Z.pow_succ_r by lia. lia.
  - rewrite Pos2Z.inj_succ.
    replace (Z.succ (Zpos (digits2_pos p)) - 1) with (Z.succ (Zpos (digits2_pos p) - 1)) by lia.
    rewrite !Z.pow_succ_r by lia. lia.
  - cbn. lia.
Qed.

Lemma Zdigits2_bounds (m : Z) :
  0 < m -> 2 ^ (Zdigits2 m - 1) <= m < 2 ^ Zdigits2 m.
Proof.
  destruct m as [| p | p]; try lia. intros _. apply digits2_pos_bounds.
Qed.

Lemma Zdigits2_nonneg (m : Z) : 0 <= Zdigits2 m.
Proof. destruct m; cbn; lia. Qed.

Lemma Zdigits2_pos (m : Z) : 0 < m -> 0 < Zdigits2 m.
Proof. destruct m; cbn; lia. Qed.

Lemma shr_1_m (mrs : shr_record) :
  0 <= shr_m mrs -> shr_m (shr_1 mrs) = shr_m mrs / 2.
Proof.
  destruct mrs as [m r s]. cbn [shr_m]. intros Hm.
  destruct m as [| [p | p |] | p]; cbn [shr_1 shr_m]; try lia.
  - reflexivity.
  - apply Z.div_unique with (r := 1); lia.
  - apply Z.div_unique with (r := 0); lia.
  - reflexivity.
Qed.

Lemma iter_shr_1_m (n : positive) :
  forall mrs, 0 <= shr_m mrs ->
    shr_m (SpecFloat.iter_pos shr_1 n mrs) = shr_m mrs / 2 ^ Zpos n.
Proof.
  assert (Hdd : forall a b c, 0 <= a -> 0 < b -> 0 < c -> a / b / c = a / (b * c)).
  { intros. apply Z.div_div; lia. }
  induction n as [n IH | n IH |]; intros mrs Hm; cbn [SpecFloat.iter_pos].
  - assert (H1 : 0 <= shr_m (shr_1 mrs)).
    { rewrite shr_1_m by assumption. apply Z.div_pos; lia. }
    assert (H2 : 0 <= shr_m (SpecFloat.iter_pos shr_1 n (shr_1 mrs))).
    { rewrite IH by assumption. apply Z.div_pos; [assumption | apply Z.pow_pos_nonneg; lia]. }
    rewrite IH by assumption. rewrite IH by assumption. rewrite shr_1_m by assumption.
    assert (Hp : 0 < 2 ^ Zpos n) by (apply Z.pow_pos_nonneg; lia).
    rewrite !Hdd; try lia.
    + f_equal. replace (Zpos n~1) with (1 + Zpos n + Zpos n) by lia.
      rewrite !Z.pow_add_r by lia. lia.
    + apply Z.div_pos; lia.
  - assert (H2 : 0 <= shr_m (SpecFloat.iter_pos shr_1 n mrs)).
    { rewrite IH by assumption. apply Z.div_pos; [assumption | apply Z.pow_pos_nonneg; lia]. }
    rewrite IH by assumption. rewrite IH by assumption.
    assert (Hp : 0 < 2 ^ Zpos n) by (apply Z.pow_pos_nonneg; lia).
    rewrite Hdd; try lia.
    f_equal. replace (Zpos n~0) with (Zpos n + Zpos n) by lia.
    rewrite Z.pow_add_r by lia. lia.
  - rewrite shr_1_m by assumption. reflexivity.
Qed.

Lemma shr_m_record_of_loc (m : Z) (l : location) : shr_m (shr_record_of_loc m l) = m.
Proof. destruct l as [| []]; reflexivity. Qed.

Lemma fexp_eq (t : Z) : fexp prec emax t = Z.max (t - 53) (-1074).
Proof. reflexivity. Qed.

(** [shr_fexp] truncates the mantissa to the exponent [kept_exp m e]. *)
Lemma shr_fexp_spec (m e : Z) (l : location) :
  0 <= m ->
  shr_m (fst (shr_fexp prec emax m e l)) = m / 2 ^ (kept_exp m e - e) /\
  snd (shr_fexp prec emax m e l) = kept_exp m e.
Proof.
  intros Hm. unfold shr_fexp, shr. rewrite fexp_eq.
  set (e1 := kept_exp m e). assert (He1 : e1 = kept_exp m e) by reflexivity.
  unfold kept_exp in He1.
  destruct (Z.max (Zdigits2 m + e - 53) (-1074) - e) as [| n | n] eqn:Hn; cbn [fst snd].
  - rewrite shr_m_record_of_loc. replace (e1 - e) with 0 by lia.
    rewrite Z.pow_0_r, Z.div_1_r. split; [reflexivity | lia].
  - rewrite iter_shr_1_m by (rewrite shr_m_record_of_loc; assumption).
    rewrite shr_m_record_of_loc. replace (e1 - e) with (Zpos n) by lia.
    split; [reflexivity | lia].
  - rewrite shr_m_record_of_loc. replace (e1 - e) with 0 by lia.
    rewrite Z.pow_0_r, Z.div_1_r. split; [reflexivity | lia].
Qed.

Lemma round_nearest_even_bounds (m : Z) (l : location) :
  m <= round_nearest_even m l <= m + 1.
Proof.
  destruct l as [| []]; cbn [round_nearest_even]; try lia.
  destruct (Z.even m); lia.
Qed.

Lemma pow2_pos (n : Z) : 0 <= n -> 0 < 2 ^ n.
Proof. intros; apply Z.pow_pos_nonneg; lia. Qed.

Lemma pow2_le (a b : Z) : 0 <= a <= b -> 2 ^ a <= 2 ^ b.
Proof. intros; apply Z.pow_le_mono_r; lia. Qed.

Lemma pow2_split (a b : Z) : 0 <= a -> 0 <= b -> 2 ^ (a + b) = 2 ^ a * 2 ^ b.
Proof. intros; apply Z.pow_add_r; lia. Qed.

(** The mantissa kept by the first shift fits in [prec] bits. *)
Lemma shr_fexp_fits (q e' : Z) :
  0 <= q -> 0 <= q / 2 ^ (kept_exp q e' - e') < 2 ^ 53.
Proof.
  intros Hq.
  set (e1 := kept_exp q e'). assert (He1 : e1 = kept_exp q e') by reflexivity.
  unfold kept_exp in He1.
  assert (Hn : 0 <= e1 - e') by lia.
  pose proof (pow2_pos _ Hn) as Hp.
  split; [apply Z.div_pos; lia |].
  apply Z.div_lt_upper_bound; [lia |].
  destruct (Z.eq_dec q 0) as [-> | Hq0].
  - pose proof (pow2_pos 53). lia.
  - pose proof (Zdigits2_bounds q ltac:(lia)) as [_ Hub].
    pose proof (Zdigits2_nonneg q) as Hd.
    assert (Hle : 2 ^ Zdigits2 q <= 2 ^ (e1 - e' + 53)) by (apply pow2_le; lia).
    rewrite pow2_split in Hle by lia. lia.
Qed.

Lemma binary_round_aux_lower (sx : bool) (q e' : Z) (l : location) :
  0 <= q -> -1074 <= e' ->
  let e1 := kept_exp q e' in
  let q1 := q / 2 ^ (e1 - e') in
  match binary_round_aux prec emax sx q e' l with
  | S754_zero _ => q1 = 0
  | S754_finite s m e =>
      s = sx /\ -1074 <= e /\ q1 * 2 ^ (e1 + 1074) <= Zpos m * 2 ^ (e + 1074)
  | S754_infinity s => s = sx
  | S754_nan => False
  end.
Proof.
  intros Hq He' e1 q1.
  pose proof (shr_fexp_fits q e' Hq) as Hfit. fold e1 q1 in Hfit.
  unfold binary_round_aux.
  pose proof (shr_fexp_spec q e' l Hq) as [Hm1 He1]. fold e1 q1 in Hm1, He1.
  destruct (shr_fexp prec emax q e' l) as [mrs1 ee1]. cbn [fst snd] in Hm1, He1. subst ee1.
  pose proof (round_nearest_even_bounds (shr_m mrs1) (loc_of_shr_record mrs1)) as Hr.
  set (q2 := round_nearest_even (shr_m mrs1) (loc_of_shr_record mrs1)) in *.
  rewrite Hm1 in Hr.
  assert (Hq2 : 0 <= q2) by lia.
  pose proof (shr_fexp_spec q2 e1 loc_Exact Hq2) as [Hm2 He2].
  destruct (shr_fexp prec emax q2 e1 loc_Exact) as [mrs2 ee2]. cbn [fst snd] in Hm2, He2.
  subst ee2. rewrite Hm2. clear Hm2 Hm1.
  assert (He1 : -1074 <= e1) by (unfold e1, kept_exp; lia).
  clearbody q1 e1. clearbody q2.
  unfold kept_exp.
  destruct (Z_le_gt_dec (Z.max (Zdigits2 q2 + e1 - 53) (-1074)) e1) as [Hle | Hgt].
  - replace (Z.max e1 (Z.max (Zdigits2 q2 + e1 - 53) (-1074))) with e1 by lia.
    rewrite Z.sub_diag, Z.pow_0_r, Z.div_1_r.
    destruct q2 as [| m | m]; [lia | | lia].
    destruct (Z.leb e1 (emax - prec)); [| reflexivity].
    split; [reflexivity |]. split; [assumption |].
    apply Z.mul_le_mono_nonneg_r; [| lia].
    pose proof (pow2_pos (e1 + 1074)). lia.
  - assert (Hd : 54 <= Zdigits2 q2) by lia.
    assert (Hpos : 0 < q2) by (destruct q2; cbn in Hd; lia).
    pose proof (Zdigits2_bounds q2 Hpos) as [Hlb _].
    assert (H53 : 2 ^ 53 <= 2 ^ (Zdigits2 q2 - 1)) by (apply pow2_le; lia).
    assert (Hq2e : q2 = 2 ^ 53) by lia.
    rewrite Hq2e.
    change (Zdigits2 (2 ^ 53)) with 54.
    replace (Z.max e1 (Z.max (54 + e1 - 53) (-1074)) - e1) with 1 by lia.
    replace (Z.max e1 (Z.max (54 + e1 - 53) (-1074))) with (e1 + 1) by lia.
    change (2 ^ 53 / 2 ^ 1) with (Zpos 4503599627370496).
    cbv iota beta.
    destruct (Z.leb (e1 + 1) (emax - prec)); [| reflexivity].
    split; [reflexivity |]. split; [lia |].
    replace (e1 + 1 + 1074) with (1 + (e1 + 1074)) by lia.
    rewrite (pow2_split 1 (e1 + 1074)) by lia.
    pose proof (pow2_pos (e1 + 1074)).
    change (2 ^ 1) with 2. change (Zpos 4503599627370496) with (2 ^ 52).
    assert (q1 <= 2 * 2 ^ 52) by (change (2 * 2 ^ 52) with (2 ^ 53); lia).
    nia.
Qed.

(** A canonical positive float [mx * 2^ex] is below the quotient kept
    after dividing it by a float [my * 2^ey <= 1]. *)
Lemma div_core_lower (mx my ex ey : Z) :
  0 < mx -> 0 < my ->
  Zdigits2 mx <= 53 -> -1074 <= ex ->
  ey <= 0 -> my <= 2 ^ (- ey) ->
  let e' := Z.min (Z.max (Zdigits2 mx + ex - (Zdigits2 my + ey) - 53) (-1074)) (ex - ey) in
  let q := (mx * 2 ^ (ex - ey - e')) / my in
  let e1 := kept_exp q e' in
  -1074 <= e' /\ 0 <= q /\
  mx * 2 ^ (ex + 1074) <= q / 2 ^ (e1 - e') * 2 ^ (e1 + 1074).
Proof.
  intros Hmx Hmy Hdx Hex Hey Hr e' q e1.
  pose proof (Zdigits2_bounds mx Hmx) as [Hxl Hxu].
  pose proof (Zdigits2_bounds my Hmy) as [Hyl Hyu].
  pose proof (Zdigits2_pos mx Hmx) as Hdx0.
  pose proof (Zdigits2_pos my Hmy) as Hdy0.
  set (dx := Zdigits2 mx) in *. set (dy := Zdigits2 my) in *.
  assert (He' : -1074 <= e' <= ex - ey) by (unfold e'; lia).
  set (sh := ex - ey - e') in *.
  assert (Hsh : 0 <= sh) by (unfold sh; lia).
  pose proof (pow2_pos sh Hsh) as Hpsh.
  assert (Hq : 0 <= q) by (apply Z.div_pos; nia).
  split; [lia |]. split; [assumption |].
  assert (He1 : e1 = Z.max e' (Zdigits2 q + e' - 53)) by (unfold e1, kept_exp; lia).
  set (dq := Zdigits2 q) in *.
  assert (Hn : 0 <= e1 - e') by lia.
  pose proof (pow2_pos _ Hn) as Hpn.
  destruct (Z_le_gt_dec e1 ex) as [Hle | Hgt].
  - (* the kept exponent does not exceed the dividend's: compare on its grid *)
    assert (Hk : mx * 2 ^ (ex - e1) <= q / 2 ^ (e1 - e')).
    { apply Z.div_le_lower_bound; [assumption |].
      unfold q. apply Z.div_le_lower_bound; [assumption |].
      replace sh with ((e1 - e') + (ex - e1) + (- ey)) by (unfold sh; lia).
      rewrite !pow2_split by lia.
      pose proof (pow2_pos (ex - e1) ltac:(lia)).
      assert (0 < mx * 2 ^ (e1 - e') * 2 ^ (ex - e1)) by nia.
      nia. }
    replace (ex + 1074) with ((ex - e1) + (e1 + 1074)) by lia.
    rewrite pow2_split by lia.
    pose proof (pow2_pos (e1 + 1074) ltac:(lia)). nia.
  - (* the kept exponent is larger: the kept mantissa has all 53 bits *)
    assert (Hk : 2 ^ 52 <= q / 2 ^ (e1 - e')).
    { destruct (Z_le_gt_dec dq 53) as [Hdq | Hdq].
      - replace (e1 - e') with 0 by lia. rewrite Z.pow_0_r, Z.div_1_r.
        assert (Heq : e' = dx + ex - (dy + ey) - 53) by (unfold e'; lia).
        unfold q. apply Z.div_le_lower_bound; [assumption |].
        replace sh with ((53 - dx) + dy) by (unfold sh; lia).
        rewrite pow2_split by lia.
        assert (H52 : 2 ^ 52 <= mx * 2 ^ (53 - dx)).
        { replace 52 with ((dx - 1) + (53 - dx)) by lia.
          rewrite pow2_split by lia.
          pose proof (pow2_pos (53 - dx) ltac:(lia)). nia. }
        nia.
      - assert (Hq0 : 0 < q) by (destruct q; cbn in dq; lia).
        pose proof (Zdigits2_bounds q Hq0) as [Hql _]. fold dq in Hql.
        apply Z.div_le_lower_bound; [assumption |].
        replace (dq - 1) with ((e1 - e') + 52) in Hql by lia.
        rewrite pow2_split in Hql by lia. lia. }
    assert (Hx : mx * 2 ^ (ex + 1074) <= 2 ^ 53 * 2 ^ (ex + 1074)).
    { apply Z.mul_le_mono_nonneg_r; [pose proof (pow2_pos (ex + 1074)); lia |].
      assert (2 ^ dx <= 2 ^ 53) by (apply pow2_le; lia). lia. }
    assert (Hy : 2 ^ 53 * 2 ^ (ex + 1074) <= 2 ^ 52 * 2 ^ (e1 + 1074)).
    { rewrite <- !pow2_split by lia. apply pow2_le. lia. }
    pose proof (pow2_pos (e1 + 1074) ltac:(lia)). nia.
Qed.

Lemma bounded_inv (m : positive) (e : Z) :
  bounded prec emax m e = true ->
  Zdigits2 (Zpos m) <= 53 /\ -1074 <= e <= 971.
Proof.
  unfold bounded, canonical_mantissa. rewrite fexp_eq. cbn [Zdigits2].
  intros H. apply andb_prop in H as [H1 H2].
  apply Z.eqb_eq in H1. apply Z.leb_le in H2.
  change (emax - prec) with 971 in H2. lia.
Qed.

Lemma SFdiv_lower (mx my : positive) (ex ey : Z) :
  bounded prec emax mx ex = true ->
  ey <= 0 -> Zpos my <= 2 ^ (- ey) ->
  match SFdiv prec emax (S754_finite false mx ex) (S754_finite false my ey) with
  | S754_finite s m e =>
      s = false /\ -1074 <= e /\ Zpos mx * 2 ^ (ex + 1074) <= Zpos m * 2 ^ (e + 1074)
  | S754_infinity s => s = false
  | _ => False
  end.
Proof.
  intros Hb Hey Hr. apply bounded_inv in Hb as [Hdx [Hex _]].
  pose proof (div_core_lower (Zpos mx) (Zpos my) ex ey
                ltac:(lia) ltac:(lia) Hdx Hex Hey Hr) as Hcore.
  cbv zeta in Hcore.
  unfold SFdiv, SFdiv_core_binary. rewrite fexp_eq.
  set (e' := Z.min (Z.max (Zdigits2 (Zpos mx) + ex - (Zdigits2 (Zpos my) + ey) - 53) (-1074))
                   (ex - ey)) in *.
  assert (Hm' : match ex - ey - e' with
                | Zpos _ => Z.shiftl (Zpos mx) (ex - ey - e')
                | Z0 => Zpos mx
                | Zneg _ => 0
                end = Zpos mx * 2 ^ (ex - ey - e')).
  { assert (Hsh : 0 <= ex - ey - e') by (unfold e'; lia).
    destruct (ex - ey - e') as [| p | p] eqn:Hs.
    - rewrite Z.pow_0_r. lia.
    - apply Z.shiftl_mul_pow2. lia.
    - lia. }
  rewrite Hm'. clear Hm'.
  set (q := Zpos mx * 2 ^ (ex - ey - e') / Zpos my) in *.
  assert (Hqe : fst (Z.div_eucl (Zpos mx * 2 ^ (ex - ey - e')) (Zpos my)) = q) by reflexivity.
  destruct (Z.div_eucl (Zpos mx * 2 ^ (ex - ey - e')) (Zpos my)) as [q' r].
  cbn [fst] in Hqe. subst q'.
  destruct Hcore as [He' [Hq Hle]].
  pose proof (binary_round_aux_lower (xorb false false) q e'
                (new_location (Zpos my) r) Hq He') as Haux.
  cbv zeta in Haux.
  destruct (binary_round_aux prec emax (xorb false false) q e' (new_location (Zpos my) r))
    as [s | s | | s m e].
  - rewrite Haux in Hle. pose proof (pow2_pos (ex + 1074) ltac:(lia)). nia.
  - exact Haux.
  - exact Haux.
  - destruct Haux as [Hs [He Hm]]. split; [exact Hs |]. split; [exact He |]. lia.
Qed.

Lemma iter_xO_spec (p k : positive) :
  Zpos (Pos.iter xO p k) = Zpos p * 2 ^ Zpos k /\
  Zpos (digits2_pos (Pos.iter xO p k)) = Zpos (digits2_pos p) + Zpos k.
Proof.
  induction k as [| k [IH1 IH2]] using Pos.peano_ind.
  - cbn [Pos.iter digits2_pos]. split; lia.
  - rewrite Pos.iter_succ. cbn [digits2_pos].
    rewrite Pos2Z.inj_xO, IH1, !Pos2Z.inj_succ, IH2, Z.pow_succ_r by lia.
    split; lia.
Qed.

Lemma binary_round_aux_canonical (sx : bool) (m : positive) (e : Z) :
  bounded prec emax m e = true ->
  binary_round_aux prec emax sx (Zpos m) e loc_Exact = S754_finite sx m e.
Proof.
  intros Hb. unfold bounded, canonical_mantissa in Hb.
  apply andb_prop in Hb as [H1 H2]. apply Z.eqb_eq in H1.
  unfold binary_round_aux, shr_fexp. cbn [Zdigits2].
  rewrite H1, Z.sub_diag. cbn [shr shr_record_of_loc shr_m loc_of_shr_record round_nearest_even].
  cbn [Zdigits2]. rewrite H1, Z.sub_diag. cbn [shr shr_record_of_loc shr_m].
  rewrite H2. reflexivity.
Qed.

Lemma of_int_small (s : Z) :
  0 < s <= 2 ^ 53 ->
  exists m e, of_int s = S754_finite false m e /\
              bounded prec emax m e = true /\
              Zpos m * 2 ^ (e + 1074) = s * 2 ^ 1074.
Proof.
  intros [Hs0 Hs].
  destruct (Z.eq_dec s (2 ^ 53)) as [-> | Hne].
  { exists 4503599627370496%positive, 1.
    split; [| split]; vm_compute; reflexivity. }
  destruct s as [| p | p]; try lia.
  pose proof (digits2_pos_bounds p) as [Hl Hu].
  set (d := Zpos (digits2_pos p)) in *.
  assert (Hd : 1 <= d <= 53).
  { split; [unfold d; lia |].
    destruct (Z_le_gt_dec d 53) as [|Hgt]; [assumption | exfalso].
    assert (2 ^ 53 <= 2 ^ (d - 1)) by (apply pow2_le; lia). lia. }
  unfold of_int, binary_normalize, binary_round, shl_align.
  rewrite fexp_eq. fold d.
  replace (Z.max (d + 0 - 53) (-1074) - 0) with (d - 53) by lia.
  replace (Z.max (d + 0 - 53) (-1074)) with (d - 53) by lia.
  destruct (d - 53) as [| k | k] eqn:Hk; try lia.
  - exists p, 0.
    assert (Hb : bounded prec emax p 0 = true).
    { unfold bounded, canonical_mantissa. rewrite fexp_eq. fold d.
      apply andb_true_intro. split; [apply Z.eqb_eq; lia | reflexivity]. }
    rewrite binary_round_aux_canonical by exact Hb.
    split; [reflexivity |]. split; [exact Hb |]. reflexivity.
  - destruct (iter_xO_spec p k) as [Hv Hdig]. fold d in Hdig.
    exists (Pos.iter xO p k), (Zneg k).
    assert (Hb : bounded prec emax (Pos.iter xO p k) (Zneg k) = true).
    { unfold bounded, canonical_mantissa. rewrite fexp_eq, Hdig.
      apply andb_true_intro. split; [apply Z.eqb_eq; lia | apply Z.leb_le].
      change (emax - prec) with 971. lia. }
    rewrite binary_round_aux_canonical by exact Hb.
    split; [reflexivity |]. split; [exact Hb |].
    rewrite Hv.
    replace (2 ^ 1074) with (2 ^ (Zpos k + (Zneg k + 1074))) by (f_equal; lia).
    rewrite (pow2_split (Zpos k)) by lia. lia.
Qed.

(** A valid float in the interval (0, 1] is a positive finite number whose
    mantissa is at most [2 ^ (- e)]. *)
Lemma unit_interval_inv (r : spec_float) :
  valid r = true -> ltb zero r = true -> leb r one = true ->
  exists m e, r = S754_finite false m e /\ e <= 0 /\ Zpos m <= 2 ^ (- e).
Proof.
  intros Hv Hpos Hle.
  destruct r as [s | s | | s m e]; try discriminate.
  - destruct s; discriminate.
  - destruct s; [discriminate |].
    exists m, e. split; [reflexivity |].
    apply bounded_inv in Hv as [Hd _]. cbn [Zdigits2] in Hd.
    pose proof (digits2_pos_bounds m) as [_ Hu].
    assert (H53 : 2 ^ Zpos (digits2_pos m) <= 2 ^ 53) by (apply pow2_le; lia).
    unfold leb, SFleb, SFcompare, one in Hle.
    destruct (Z.compare e (-52)) eqn:Hc.
    + apply Z.compare_eq in Hc. subst e. split; [lia |].
      rewrite Pos.compare_cont_spec in Hle.
      destruct (Pos.compare m 4503599627370496) eqn:Hm; try discriminate.
      * apply Pos.compare_eq in Hm. subst m. vm_compute. discriminate.
      * change (2 ^ (- -52)) with (Zpos 4503599627370496).
        apply Z.lt_le_incl. exact Hm.
    + assert (Hlt : e < -52) by exact Hc. split; [lia |].
      assert (2 ^ 53 <= 2 ^ (- e)) by (apply pow2_le; lia). lia.
    + discriminate.
Qed.

End Float64Facts.

(** ** Facts about the Python primitives *)

Lemma math_ceil_lower (s : Z) (m : positive) (e : Z) :
  -1074 <= e -> s * 2 ^ 1074 <= Zpos m * 2 ^ (e + 1074) ->
  exists c, math_ceil (S754_finite false m e) = Ok c /\ s <= c.
Proof.
  intros He Hle. cbn [math_ceil cond_Zopp].
  destruct (Z.leb_spec 0 e) as [Hpos | Hneg].
  - exists (Zpos m * 2 ^ e). split; [reflexivity |].
    rewrite (Float64Facts.pow2_split e 1074) in Hle by lia.
    pose proof (Float64Facts.pow2_pos 1074 ltac:(lia)). nia.
  - exists (- (- Zpos m / 2 ^ (- e))). split; [reflexivity |].
    replace (2 ^ 1074) with (2 ^ (- e + (e + 1074))) in Hle by (f_equal; lia).
    rewrite (Float64Facts.pow2_split (- e)) in Hle by lia.
    pose proof (Float64Facts.pow2_pos (e + 1074) ltac:(lia)).
    pose proof (Float64Facts.pow2_pos (- e) ltac:(lia)).
    assert (Hm : s * 2 ^ (- e) <= Zpos m) by nia.
    assert (- Zpos m / 2 ^ (- e) <= - s); [| lia].
    apply Z.div_le_upper_bound; [assumption | nia].
Qed.

(** The crop size computed for a target size [s] and a crop ratio [r] in
    (0, 1]: the quotient is +infinity or a number whose ceiling is at
    least [s]. *)
Lemma truediv_ceil_lower (s : Z) (r : spec_float) :
  0 <= s <= 2 ^ 53 ->
  Float64.valid r = true ->
  Float64.ltb Float64.zero r = true ->
  Float64.leb r Float64.one = true ->
  truediv s (VFloat r) = Ok (Float64.div (Float64.of_int s) r) /\
  (Float64.div (Float64.of_int s) r = S754_infinity false \/
   exists c, math_ceil (Float64.div (Float64.of_int s) r) = Ok c /\ s <= c).
Proof.
  intros [Hs0 Hs] Hv Hpos Hle.
  destruct (Float64Facts.unit_interval_inv r Hv Hpos Hle) as (my & ey & -> & Hey & Hmy).
  destruct (Z.eq_dec s 0) as [-> | Hne].
  - split; [reflexivity |]. right. exists 0. split; [reflexivity | lia].
  - destruct (Float64Facts.of_int_small s ltac:(lia)) as (mx & ex & Hx & Hb & Hval).
    unfold truediv, float_of_int. rewrite Hx. cbn [result_bind float_truediv].
    split; [reflexivity |].
    pose proof (Float64Facts.SFdiv_lower mx my ex ey Hb Hey Hmy) as Hq.
    unfold Float64.div.
    destruct (SFdiv Float64.prec Float64.emax (S754_finite false mx ex)
                (S754_finite false my ey)) as [sq | sq | | sq mq eq]; try contradiction.
    + left. subst sq. reflexivity.
    + right. destruct Hq as (-> & Heq & Hm).
      apply math_ceil_lower; [assumption | lia].
Qed.

(** ** The constructor *)

Section Constructor.

Context `{Collaborators}.

(** What one constructor call does: a new dictionary object is appended
    to the heap and the provider refers to it. *)
Lemma init_spec (dd : option string) (rc : option dict) (da : option aug_spec)
    (args : DataProvider.args) (vd : string) (nc : Z) (w : world) :
  init dd rc da args vd nc w =
    (Ok (Build_provider (str_or dd class_data_dir) vd (length (heap w)) nc da
           (DataProvider_init args)),
     {| heap := heap w ++ [dict_or_empty rc ∪ default ∅ (heap w !! _DEFAULT_RRC_CONFIG)];
        scans := scans w |}).
Proof.
  unfold init, bind, deepcopy, partial_update_config, ret. cbn [heap scans].
  do 2 f_equal.
  rewrite <- (Nat.add_0_r (length (heap w))) at 1.
  rewrite alter_app_r. reflexivity.
Qed.

Lemma dict_or_empty_spec (rc : option dict) : dict_or_empty rc = default ∅ rc.
Proof.
  destruct rc as [d |]; [| reflexivity]. cbn.
  destruct (decide (d = ∅)) as [-> | _]; reflexivity.
Qed.

Lemma config_of_init (dd : option string) (rc : option dict) (da : option aug_spec)
    (args : DataProvider.args) (vd : string) (nc : Z) (w : world) :
  class_ok w ->
  exists self w',
    init dd rc da args vd nc w = (Ok self, w') /\
    config_of self w' = default ∅ rc ∪ default_rrc_config /\
    data_aug self = da /\
    class_ok w' /\ scans w' = scans w.
Proof.
  intros Hok. rewrite init_spec. eexists _, _. split; [reflexivity |].
  unfold class_ok in Hok. rewrite Hok. cbn [default].
  unfold config_of, class_ok. cbn [rrc_config heap scans data_aug].
  rewrite list_lookup_middle by reflexivity. cbn [default].
  rewrite dict_or_empty_spec.
  repeat split.
  rewrite lookup_app_l by (eapply lookup_lt_Some; exact Hok). exact Hok.
Qed.

Lemma class_ok_construct (a : init_args) (w : world) :
  class_ok w -> class_ok (snd (construct a w)).
Proof.
  intros Hok. unfold construct.
  destruct (config_of_init (arg_data_dir a) (arg_rrc_config a) (arg_data_aug a)
              (arg_base a) (arg_val_dir a) (arg_n_classes a) w Hok)
    as (self & w' & -> & _ & _ & Hok' & _).
  exact Hok'.
Qed.

Lemma class_ok_construct_all (calls : list init_args) (w : world) :
  class_ok w -> class_ok (construct_all calls w).
Proof.
  revert w. induction calls as [| a rest IH]; intros w Hok; cbn [construct_all].
  - exact Hok.
  - apply IH, class_ok_construct, Hok.
Qed.

Lemma class_ok_class_world : class_ok class_world.
Proof. reflexivity. Qed.

Lemma overlay_lookup (o : dict) (k : string) :
  (o ∪ default_rrc_config) !! k =
    match o !! k with
    | Some v => Some v
    | None => default_rrc_config !! k
    end.
Proof.
  rewrite lookup_union. destruct (o !! k) as [v |]; cbn.
  - destruct (default_rrc_config !! k); reflexivity.
  - destruct (default_rrc_config !! k); reflexivity.
Qed.

Lemma configured_overlay (self : provider) (w : world) (o : dict) :
  config_of self w = o ∪ default_rrc_config -> configured self w.
Proof.
  intros Hc k Hk. rewrite Hc, overlay_lookup.
  destruct (o !! k); [eexists; reflexivity | exact Hk].
Qed.

(** C6: the constructor overlays the caller's partial [rrc_config] on the
    default configuration: a key the caller gives takes the caller's value,
    every other key keeps its default.  In particular the override
    [{"test_crop_ratio": 0.9}] yields ["random"], ["bicubic"] and [0.9]. *)
Theorem rrc_config_overlay (dd : option string) (rc : option dict)
    (da : option aug_spec) (args : DataProvider.args) (vd : string) (nc : Z)
    (w : world) :
  class_ok w ->
  (exists self w',
     init dd rc da args vd nc w = (Ok self, w') /\
     forall k, config_of self w' !! k =
       match default ∅ rc !! k with
       | Some v => Some v
       | None => default_rrc_config !! k
       end) /\
  (exists self w',
     init dd (Some {[ "test_crop_ratio" := VFloat (decimal 9 10) ]}) da args vd nc w
       = (Ok self, w') /\
     config_of self w' =
       {[ "train_interpolate" := VStr "random";
          "test_interpolate" := VStr "bicubic";
          "test_crop_ratio" := VFloat (decimal 9 10) ]}).
Proof.
  intros Hok. split.
  - destruct (config_of_init dd rc da args vd nc w Hok) as (self & w' & Hi & Hc & _).
    exists self, w'. split; [exact Hi |].
    intros k. rewrite Hc. apply overlay_lookup.
  - destruct (config_of_init dd (Some {[ "test_crop_ratio" := VFloat (decimal 9 10) ]})
                da args vd nc w Hok) as (self & w' & Hi & Hc & _).
    exists self, w'. split; [exact Hi |].
    rewrite Hc. vm_compute. reflexivity.
Qed.

(** C9: constructing providers never changes the class-level default:
    after any sequence of constructor calls the object
    [_DEFAULT_RRC_CONFIG] still holds the default configuration, and a
    provider constructed next without an override reads exactly the
    default values. *)
Theorem default_rrc_config_preserved (calls : list init_args)
    (dd : option string) (da : option aug_spec) (args : DataProvider.args)
    (vd : string) (nc : Z) :
  heap (construct_all calls class_world) !! _DEFAULT_RRC_CONFIG
    = Some default_rrc_config /\
  exists self w',
    init dd None da args vd nc (construct_all calls class_world) = (Ok self, w') /\
    getitem (config_of self w') "train_interpolate" = Ok (VStr "random") /\
    getitem (config_of self w') "test_interpolate" = Ok (VStr "bicubic") /\
    getitem (config_of self w') "test_crop_ratio" = Ok (VFloat Float64.one) /\
    heap w' !! _DEFAULT_RRC_CONFIG = Some default_rrc_config.
Proof.
  pose proof (class_ok_construct_all calls class_world class_ok_class_world) as Hok.
  split; [exact Hok |].
  destruct (config_of_init dd None da args vd nc _ Hok) as (self & w' & Hi & Hc & _ & Hok' & _).
  exists self, w'. split; [exact Hi |].
  rewrite Hc. cbn [default]. rewrite (left_id_L ∅ (∪)).
  repeat split; try exact Hok'.
Qed.

(** C10: a missing or empty [data_dir] argument falls back to the class
    attribute ["/dataset/imagenet"]; a non-empty one is stored unchanged. *)
Theorem data_dir_fallback (rc : option dict) (da : option aug_spec)
    (args : DataProvider.args) (vd : string) (nc : Z) (w : world) :
  (exists self w', init None rc da args vd nc w = (Ok self, w') /\
                   data_dir self = "/dataset/imagenet") /\
  (exists self w', init (Some "") rc da args vd nc w = (Ok self, w') /\
                   data_dir self = "/dataset/imagenet") /\
  (forall c rest, exists self w',
     init (Some (String c rest)) rc da args vd nc w = (Ok self, w') /\
     data_dir self = String c rest).
Proof.
  repeat split; intros; rewrite init_spec; eexists _, _; split; reflexivity.
Qed.

End Constructor.

(** ** The transform builders *)

Section Transforms.

Context `{Collaborators}.

(** Both builders only read the world: their outcome is a function of the
    provider, the argument and the configuration dictionary. *)
Lemma build_valid_transform_eq (self : provider) (arg : option (Z * Z)) (w : world) :
  build_valid_transform self arg w =
    ((let s := fst (size_or arg (DataProvider.active_image_size (base self))) in
      ratio <- getitem (config_of self w) "test_crop_ratio" ;;
      quotient <- truediv s ratio ;;
      crop_size <- math_ceil quotient ;;
      name <- getitem (config_of self w) "test_interpolate" ;;
      interpolation <- get_interpolate name ;;
      Ok [ Resize crop_size interpolation; CenterCrop s; ToTensor;
           Normalize (DataProvider.mean (base self)) (DataProvider.std (base self)) ])%result,
     w).
Proof.
  unfold build_valid_transform, bind, lift, deref, ret, config_of, result_bind.
  cbv zeta.
  destruct (getitem _ "test_crop_ratio") as [ratio |]; [| reflexivity].
  destruct (truediv _ ratio) as [quotient |]; [| reflexivity].
  destruct (math_ceil quotient) as [crop_size |]; [| reflexivity].
  destruct (getitem _ "test_interpolate") as [name |]; [| reflexivity].
  destruct (get_interpolate name); reflexivity.
Qed.

Lemma build_train_transform_eq (self : provider) (arg : option (Z * Z)) (w : world) :
  build_train_transform self arg w =
    ((interpolation <- getitem (config_of self w) "train_interpolate" ;;
      lists <- match data_aug self with
               | Some spec =>
                   aug_loop self (val2list spec)
                     [MyRandomResizedCrop interpolation; RandomHorizontalFlip] []
               | None => Ok ([MyRandomResizedCrop interpolation; RandomHorizontalFlip], [])
               end ;;
      Ok (fst lists
            ++ [ToTensor;
                Normalize (DataProvider.mean (base self)) (DataProvider.std (base self))]
            ++ snd lists))%result,
     w).
Proof.
  unfold build_train_transform, bind, lift, deref, ret, config_of, result_bind.
  cbv zeta.
  destruct (getitem _ "train_interpolate") as [interpolation |]; [| reflexivity].
  destruct (data_aug self) as [spec |]; [| reflexivity].
  destruct (aug_loop _ _ _ _); reflexivity.
Qed.

Lemma build_train_transform_arg (self : provider) (arg : option (Z * Z)) (w : world) :
  build_train_transform self arg w = build_train_transform self None w.
Proof. rewrite !build_train_transform_eq. reflexivity. Qed.

(** C8: the image size passed to [build_train_transform] is bound to a
    local name that no stage reads: the outcome is that of a call without
    the argument. *)
Theorem build_train_transform_ignores_size (self : provider) (size : Z * Z)
    (w : world) :
  build_train_transform self (Some size) w = build_train_transform self None w.
Proof. apply build_train_transform_arg. Qed.

(** C5: a provider constructed without augmentation builds the training
    pipeline random-resized-crop, horizontal flip, tensor conversion,
    normalization, and nothing else. *)
Theorem build_train_transform_plain (dd : option string) (rc : option dict)
    (args : DataProvider.args) (vd : string) (nc : Z) (arg : option (Z * Z))
    (w : world) :
  class_ok w ->
  exists self w' interpolation,
    init dd rc None args vd nc w = (Ok self, w') /\
    getitem (config_of self w') "train_interpolate" = Ok interpolation /\
    build_train_transform self arg w' =
      (Ok [ MyRandomResizedCrop interpolation;
            RandomHorizontalFlip;
            ToTensor;
            Normalize (DataProvider.mean (base self)) (DataProvider.std (base self)) ],
       w').
Proof.
  intros Hok.
  destruct (config_of_init dd rc None args vd nc w Hok)
    as (self & w' & Hi & Hc & Hda & _).
  pose proof (configured_overlay self w' _ Hc "train_interpolate"
                ltac:(eexists; reflexivity)) as [v Hv].
  exists self, w', v. split; [exact Hi |].
  assert (Hg : getitem (config_of self w') "train_interpolate" = Ok v)
    by (unfold getitem; rewrite Hv; reflexivity).
  split; [exact Hg |].
  rewrite build_train_transform_eq, Hg, Hda. reflexivity.
Qed.

End Transforms.

(** ** The evaluation crop *)

Section CropSize.

Context `{Collaborators}.

(** C1 (amended): for a crop ratio [r] with [0 < r <= 1.0] and a target
    size [s] with [0 <= s <= 2 ** 53] whose quotient [s / r] does not
    overflow, [build_valid_transform] returns a pipeline that starts with a
    resize of the shorter side to [ceil(s / r)], which is at least [s],
    followed immediately by a center crop of size [s]. *)
Theorem build_valid_transform_crop (self : provider) (arg : option (Z * Z))
    (w : world) (r : spec_float) (name : pyval) (mode : InterpolationMode) :
  let s := fst (size_or arg (DataProvider.active_image_size (base self))) in
  getitem (config_of self w) "test_crop_ratio" = Ok (VFloat r) ->
  getitem (config_of self w) "test_interpolate" = Ok name ->
  get_interpolate name = Ok mode ->
  Float64.valid r = true ->
  Float64.ltb Float64.zero r = true ->
  Float64.leb r Float64.one = true ->
  0 <= s <= 2 ^ 53 ->
  Float64.is_finite (Float64.div (Float64.of_int s) r) = true ->
  exists crop_size,
    math_ceil (Float64.div (Float64.of_int s) r) = Ok crop_size /\
    s <= crop_size /\
    build_valid_transform self arg w =
      (Ok [ Resize crop_size mode;
            CenterCrop s;
            ToTensor;
            Normalize (DataProvider.mean (base self)) (DataProvider.std (base self)) ],
       w).
Proof.
  intros s Hratio Hname Hmode Hvalid Hpos Hle Hs Hfin.
  destruct (truediv_ceil_lower s r Hs Hvalid Hpos Hle) as [Hdiv [Hinf | (c & Hc & Hsc)]].
  - rewrite Hinf in Hfin. discriminate.
  - exists c. split; [exact Hc |]. split; [exact Hsc |].
    rewrite build_valid_transform_eq. fold s. cbv zeta.
    rewrite Hratio. cbn [result_bind]. rewrite Hdiv. cbn [result_bind].
    rewrite Hc. cbn [result_bind]. rewrite Hname. cbn [result_bind].
    rewrite Hmode. reflexivity.
Qed.

End CropSize.

(** The bound [r <= 1.0] alone does not give the property of C1: with the
    ratio [-1.0] and the target size 224 the pipeline starts with a resize
    to [-224], which is below the target size. *)
Lemma build_valid_transform_negative_ratio :
  Float64.leb minus_one Float64.one = true /\
  getitem (config_of (fst (demo_provider None (Some {[ "test_crop_ratio" := VFloat minus_one ]}) None ""))
             (snd (demo_provider None (Some {[ "test_crop_ratio" := VFloat minus_one ]}) None "")))
    "test_crop_ratio" = Ok (VFloat minus_one) /\
  (exists rest,
     fst (@build_valid_transform demo
            (fst (demo_provider None (Some {[ "test_crop_ratio" := VFloat minus_one ]}) None ""))
            (Some (224, 224))
            (snd (demo_provider None (Some {[ "test_crop_ratio" := VFloat minus_one ]}) None "")))
       = Ok (Resize (-224) BICUBIC :: CenterCrop 224 :: rest)) /\
  ~ (224 <= -224).
Proof.
  split; [reflexivity |]. split; [vm_compute; reflexivity |].
  split; [eexists; vm_compute; reflexivity | lia].
Qed.

(** The other edges of the ratio and of the size. *)
Example build_valid_transform_zero_ratio :
  fst (@build_valid_transform demo
         (fst (demo_provider None (Some {[ "test_crop_ratio" := VFloat Float64.zero ]}) None ""))
         (Some (224, 224))
         (snd (demo_provider None (Some {[ "test_crop_ratio" := VFloat Float64.zero ]}) None "")))
    = Raise ZeroDivisionError.
Proof. vm_compute. reflexivity. Qed.

Example build_valid_transform_tiny_ratio :
  Float64.ltb Float64.zero tiny = true /\
  Float64.leb tiny Float64.one = true /\
  fst (@build_valid_transform demo
         (fst (demo_provider None (Some {[ "test_crop_ratio" := VFloat tiny ]}) None ""))
         (Some (224, 224))
         (snd (demo_provider None (Some {[ "test_crop_ratio" := VFloat tiny ]}) None "")))
    = Raise OverflowError.
Proof. repeat split; vm_compute; reflexivity. Qed.

Example build_valid_transform_big_size :
  exists rest,
    fst (@build_valid_transform demo (fst (demo_provider None None None ""))
           (Some (big_size, big_size)) (snd (demo_provider None None None "")))
      = Ok (Resize (big_size - 1) BICUBIC :: CenterCrop big_size :: rest).
Proof. eexists. vm_compute. reflexivity. Qed.

(** ** The augmentation loop *)

Section Augmentation.

Context `{Collaborators}.

Lemma py_eq_str_true (v : pyval) (s : string) : py_eq_str v s = true -> v = VStr s.
Proof.
  destruct v as [z | f | t]; cbn; try discriminate.
  intros Heq. apply String.eqb_eq in Heq. congruence.
Qed.

(** The two ways through the loop body. *)
Lemma aug_body_ok (self : provider) (op : dict) (post_aug : list transform)
    (step : option transform * list transform) :
  aug_body self op post_aug = Ok step ->
  (is_op "randaug" op = true /\ is_op "erase" op = false /\
   step = (Some (RandAug op (DataProvider.mean (base self))), post_aug)) \/
  (is_op "randaug" op = false /\ is_op "erase" op = true /\
   exists t, erasure_of op t /\ step = (None, post_aug ++ [t])).
Proof.
  unfold aug_body, is_op, getitem, result_bind, erasure_of.
  destruct (op !! "name") as [name |]; [| discriminate].
  destruct (py_eq_str name "randaug") eqn:Hrand.
  - intros [= <-]. left. apply py_eq_str_true in Hrand. subst name.
    repeat split.
  - destruct (py_eq_str name "erase") eqn:Herase; [| discriminate].
    destruct (op !! "p") as [p |]; [| discriminate].
    intros [= <-]. right. repeat split. eauto.
Qed.





(** What an accepted loop appends: the [RandAug] operators of the randaug
    entries to the pre-tensor list, one erasure per erase entry to
    [post_aug], both in the order of the entries. *)
Lemma aug_loop_ok (self : provider) (ops : list dict) :
  forall train_transforms post_aug lists,
    aug_loop self ops train_transforms post_aug = Ok lists ->
    exists erasures,
      lists =
        (train_transforms
           ++ List.map (fun op => RandAug op (DataProvider.mean (base self)))
                (List.filter (is_op "randaug") ops),
         post_aug ++ erasures) /\
      Forall2 erasure_of (List.filter (is_op "erase") ops) erasures.
Proof.
  induction ops as [| op rest IH]; intros train_transforms post_aug lists Hloop.
  - cbn in Hloop. injection Hloop as <-. exists []. cbn.
    rewrite !app_nil_r. split; [reflexivity | constructor].
  - cbn [aug_loop] in Hloop.
    destruct (aug_body self op post_aug) as [step | e] eqn:Hstep; [| discriminate].
    cbn [result_bind] in Hloop.
    apply aug_body_ok in Hstep
      as [(Hrand & Herase & ->) | (Hrand & Herase & t & Ht & ->)];
      cbn [fst snd] in Hloop; apply IH in Hloop as (erasures & -> & Hall);
      cbn [List.filter]; rewrite Hrand, Herase.
    + exists erasures. split; [| exact Hall].
      cbn [List.map]. rewrite <- List.app_assoc. reflexivity.
    + exists (t :: erasures). split; [| constructor; assumption].
      rewrite <- List.app_assoc. reflexivity.
Qed.

(** C3: in every pipeline [build_train_transform] returns, the geometric
    operators come first, followed by the randaug operators, the tensor
    conversion, the normalization and last the erasures: each ["erase"]
    entry contributes exactly one random-erasing operator, placed after
    the normalization, and nothing before the tensor conversion. *)
Theorem erase_after_normalize (self : provider) (arg : option (Z * Z))
    (w w' : world) (pipeline : Compose) :
  build_train_transform self arg w = (Ok pipeline, w') ->
  exists interpolation erasures,
    pipeline =
      [MyRandomResizedCrop interpolation; RandomHorizontalFlip]
        ++ List.map (fun op => RandAug op (DataProvider.mean (base self)))
             (List.filter (is_op "randaug") (aug_ops self))
        ++ [ToTensor;
            Normalize (DataProvider.mean (base self)) (DataProvider.std (base self))]
        ++ erasures /\
    Forall2 erasure_of (List.filter (is_op "erase") (aug_ops self)) erasures.
Proof.
  rewrite build_train_transform_eq. unfold aug_ops.
  destruct (getitem (config_of self w) "train_interpolate") as [interpolation |];
    [| discriminate].
  cbn [result_bind].
  destruct (data_aug self) as [spec |].
  - destruct (aug_loop self (val2list spec) _ _) as [lists |] eqn:Hloop; [| discriminate].
    cbn [result_bind]. intros [= <- _].
    apply aug_loop_ok in Hloop as (erasures & -> & Hall).
    exists interpolation, erasures. cbn [fst snd app].
    split; [| exact Hall]. reflexivity.
  - cbn [result_bind fst snd]. intros [= <- _].
    exists interpolation, []. split; [reflexivity | constructor].
Qed.



End Augmentation.

(** ** Repeated calls of the evaluation builder *)

Section Repeatable.

Context (env : Collaborators).


End Repeatable.



(** ** The datasets *)

Section Datasets.

Context `{Collaborators}.

Lemma ImageFolder_eq (dir : string) (transform : Compose) (w : world) :
  ImageFolder dir transform w =
    (match find_samples dir with
     | Ok found => Ok (Build_dataset dir found transform)
     | Raise e => Raise e
     end,
     {| heap := heap w; scans := scans w ++ [dir] |}).
Proof. unfold ImageFolder. destruct (find_samples dir); reflexivity. Qed.

(** [build_datasets] step by step: both pipelines are built first, then
    the two directories of the layout are enumerated in order. *)
Lemma build_datasets_eq (self : provider) (w : world) :
  build_datasets self w =
    match fst (build_train_transform self None w) with
    | Raise e => (Raise e, w)
    | Ok train_transform =>
        match fst (build_valid_transform self None w) with
        | Raise e => (Raise e, w)
        | Ok valid_transform =>
            match find_samples (fst (layout self)) with
            | Raise e =>
                (Raise e, {| heap := heap w; scans := scans w ++ [fst (layout self)] |})
            | Ok found_train =>
                let w' := {| heap := heap w;
                             scans := scans w ++ [fst (layout self); snd (layout self)] |} in
                match find_samples (snd (layout self)) with
                | Raise e => (Raise e, w')
                | Ok found_test =>
                    match sample_val_dataset self
                            (Build_dataset (fst (layout self)) found_train train_transform)
                            valid_transform with
                    | Raise e => (Raise e, w')
                    | Ok split =>
                        (Ok (fst split, snd split,
                             Build_dataset (snd (layout self)) found_test valid_transform),
                         w')
                    end
                end
            end
        end
    end.
Proof.
  unfold build_datasets, bind, layout.
  assert (Ht : snd (build_train_transform self None w) = w)
    by (rewrite build_train_transform_eq; reflexivity).
  assert (Hv : snd (build_valid_transform self None w) = w)
    by (rewrite build_valid_transform_eq; reflexivity).
  destruct (build_train_transform self None w) as [[train_transform | e] w1];
    cbn [fst snd] in *; subst w1; [| reflexivity].
  destruct (build_valid_transform self None w) as [[valid_transform | e] w2];
    cbn [fst snd] in *; subst w2; [| reflexivity].
  destruct (str_contains "21K" (data_dir self)); cbn [fst snd]; cbv beta;
    rewrite ImageFolder_eq;
    (destruct (find_samples _) as [found_train | e]; [| reflexivity]);
    rewrite ImageFolder_eq; cbn [heap scans]; rewrite <- List.app_assoc; cbn [app];
    (destruct (find_samples _) as [found_test | e]; [| reflexivity]);
    unfold ret, lift; cbn [fst snd];
    destruct (sample_val_dataset _ _ _); reflexivity.
Qed.

(** The path of a sub-directory: one separator is put between the
    directory and the name unless the directory already ends with one. *)
Lemma os_path_join_subdir (dir name : string) :
  String.prefix "/" name = false ->
  os_path_join dir name =
    if String.eqb dir "" || ends_with_sep dir then dir +:+ name
    else dir +:+ "/" +:+ name.
Proof. intros Hrel. unfold os_path_join. rewrite Hrel. reflexivity. Qed.


End Datasets.

(** ** The theorems at work on concrete providers *)

Lemma build_valid_transform_crop_witness :
  (getitem (config_of (fst (demo_provider None (Some {[ "test_crop_ratio" := VFloat nine_tenths ]}) None ""))
              (snd (demo_provider None (Some {[ "test_crop_ratio" := VFloat nine_tenths ]}) None "")))
     "test_crop_ratio" = Ok (VFloat nine_tenths) /\
   getitem (config_of (fst (demo_provider None (Some {[ "test_crop_ratio" := VFloat nine_tenths ]}) None ""))
              (snd (demo_provider None (Some {[ "test_crop_ratio" := VFloat nine_tenths ]}) None "")))
     "test_interpolate" = Ok (VStr "bicubic") /\
   demo_get_interpolate (VStr "bicubic") = Ok BICUBIC /\
   Float64.valid nine_tenths = true /\
   Float64.ltb Float64.zero nine_tenths = true /\
   Float64.leb nine_tenths Float64.one = true /\
   0 <= 224 <= 2 ^ 53 /\
   Float64.is_finite (Float64.div (Float64.of_int 224) nine_tenths) = true) /\
  exists crop_size,
    math_ceil (Float64.div (Float64.of_int 224) nine_tenths) = Ok crop_size /\
    224 <= crop_size /\
    @build_valid_transform demo
      (fst (demo_provider None (Some {[ "test_crop_ratio" := VFloat nine_tenths ]}) None ""))
      (Some (224, 224))
      (snd (demo_provider None (Some {[ "test_crop_ratio" := VFloat nine_tenths ]}) None ""))
    = (Ok [ Resize crop_size BICUBIC; CenterCrop 224; ToTensor;
            Normalize demo_mean demo_std ],
       snd (demo_provider None (Some {[ "test_crop_ratio" := VFloat nine_tenths ]}) None "")).
Proof.
  assert (H1 : getitem (config_of (fst (demo_provider None (Some {[ "test_crop_ratio" := VFloat nine_tenths ]}) None ""))
              (snd (demo_provider None (Some {[ "test_crop_ratio" := VFloat nine_tenths ]}) None "")))
     "test_crop_ratio" = Ok (VFloat nine_tenths)) by (vm_compute; reflexivity).
  assert (H2 : getitem (config_of (fst (demo_provider None (Some {[ "test_crop_ratio" := VFloat nine_tenths ]}) None ""))
              (snd (demo_provider None (Some {[ "test_crop_ratio" := VFloat nine_tenths ]}) None "")))
     "test_interpolate" = Ok (VStr "bicubic")) by (vm_compute; reflexivity).
  assert (H3 : demo_get_interpolate (VStr "bicubic") = Ok BICUBIC) by reflexivity.
  assert (H4 : Float64.valid nine_tenths = true) by reflexivity.
  assert (H5 : Float64.ltb Float64.zero nine_tenths = true) by reflexivity.
  assert (H6 : Float64.leb nine_tenths Float64.one = true) by reflexivity.
  assert (H7 : 0 <= 224 <= 2 ^ 53) by (split; vm_compute; discriminate).
  assert (H8 : Float64.is_finite (Float64.div (Float64.of_int 224) nine_tenths) = true)
    by reflexivity.
  split;
    [exact (conj H1 (conj H2 (conj H3 (conj H4 (conj H5 (conj H6 (conj H7 H8))))))) |].
  exact (@build_valid_transform_crop demo _ (Some (224, 224)) _ nine_tenths
           (VStr "bicubic") BICUBIC H1 H2 H3 H4 H5 H6 H7 H8).
Defined.


Lemma erase_after_normalize_witness :
  build_train_transform
    (fst (demo_provider None None (Some (AugList [erase_op; randaug_op])) ""))
    None
    (snd (demo_provider None None (Some (AugList [erase_op; randaug_op])) ""))
  = (Ok [ MyRandomResizedCrop (VStr "random"); RandomHorizontalFlip;
          RandAug randaug_op demo_mean;
          ToTensor; Normalize demo_mean demo_std;
          RandomErasing (VFloat (decimal 2 10)) "cpu" ],
     snd (demo_provider None None (Some (AugList [erase_op; randaug_op])) "")) /\
  exists interpolation erasures,
    [ MyRandomResizedCrop (VStr "random"); RandomHorizontalFlip;
      RandAug randaug_op demo_mean;
      ToTensor; Normalize demo_mean demo_std;
      RandomErasing (VFloat (decimal 2 10)) "cpu" ] =
      [MyRandomResizedCrop interpolation; RandomHorizontalFlip]
        ++ List.map (fun op => RandAug op demo_mean)
             (List.filter (is_op "randaug") [erase_op; randaug_op])
        ++ [ToTensor; Normalize demo_mean demo_std]
        ++ erasures /\
    Forall2 erasure_of (List.filter (is_op "erase") [erase_op; randaug_op]) erasures.
Proof.
  assert (H1 : build_train_transform
    (fst (demo_provider None None (Some (AugList [erase_op; randaug_op])) ""))
    None
    (snd (demo_provider None None (Some (AugList [erase_op; randaug_op])) ""))
  = (Ok [ MyRandomResizedCrop (VStr "random"); RandomHorizontalFlip;
          RandAug randaug_op demo_mean;
          ToTensor; Normalize demo_mean demo_std;
          RandomErasing (VFloat (decimal 2 10)) "cpu" ],
     snd (demo_provider None None (Some (AugList [erase_op; randaug_op])) "")))
    by (vm_compute; reflexivity).
  split; [exact H1 |].
  exact (erase_after_normalize _ None _ _ _ H1).
Defined.


Lemma build_train_transform_plain_witness :
  class_ok class_world /\
  exists self w' interpolation,
    @init demo None None None demo_args "" 1000 class_world = (Ok self, w') /\
    getitem (config_of self w') "train_interpolate" = Ok interpolation /\
    build_train_transform self None w' =
      (Ok [ MyRandomResizedCrop interpolation; RandomHorizontalFlip; ToTensor;
            Normalize (DataProvider.mean (base self)) (DataProvider.std (base self)) ],
       w').
Proof.
  assert (H1 : class_ok class_world) by reflexivity.
  split; [exact H1 |].
  exact (@build_train_transform_plain demo None None demo_args "" 1000 None class_world H1).
Defined.

Lemma rrc_config_overlay_witness :
  class_ok class_world /\
  (exists self w',
     @init demo None (Some {[ "test_interpolate" := VStr "bilinear" ]}) None demo_args ""
       1000 class_world = (Ok self, w') /\
     forall k, config_of self w' !! k =
       match default ∅ (Some ({[ "test_interpolate" := VStr "bilinear" ]} : dict)) !! k with
       | Some v => Some v
       | None => default_rrc_config !! k
       end) /\
  (exists self w',
     @init demo None (Some {[ "test_crop_ratio" := VFloat (decimal 9 10) ]}) None
       demo_args "" 1000 class_world = (Ok self, w') /\
     config_of self w' =
       {[ "train_interpolate" := VStr "random";
          "test_interpolate" := VStr "bicubic";
          "test_crop_ratio" := VFloat (decimal 9 10) ]}).
Proof.
  assert (H1 : class_ok class_world) by reflexivity.
  split; [exact H1 |].
  exact (@rrc_config_overlay demo None (Some {[ "test_interpolate" := VStr "bilinear" ]})
           None demo_args "" 1000 class_world H1).
Defined.

(** The conventional layout: the default directory, and a directory given
    with a trailing separator. *)
Example build_datasets_conventional_layout :
  scans (snd (@build_datasets demo (fst (demo_provider None None None ""))
                (snd (demo_provider None None None ""))))
    = ["/dataset/imagenet/train"; "/dataset/imagenet/val"] /\
  scans (snd (@build_datasets demo (fst (demo_provider (Some "/data/in1k/") None None ""))
                (snd (demo_provider (Some "/data/in1k/") None None ""))))
    = ["/data/in1k/train"; "/data/in1k/val"].
Proof. split; vm_compute; reflexivity. Qed.

(** * Further properties of the code *)

(** ** The crop size at the edges of the ratio *)

(** The sign of a rounded non-negative mantissa is the sign asked for. *)
Lemma binary_round_aux_sign (sx : bool) (q e : Z) (l : location) :
  0 <= q ->
  match binary_round_aux Float64.prec Float64.emax sx q e l with
  | S754_zero s | S754_infinity s | S754_finite s _ _ => s = sx
  | S754_nan => False
  end.
Proof.
  intros Hq. unfold binary_round_aux.
  pose proof (Float64Facts.shr_fexp_spec q e l Hq) as [Hm1 _].
  destruct (shr_fexp Float64.prec Float64.emax q e l) as [mrs1 e1]. cbn [fst] in Hm1.
  pose proof (Float64Facts.round_nearest_even_bounds (shr_m mrs1) (loc_of_shr_record mrs1))
    as Hr.
  set (q2 := round_nearest_even (shr_m mrs1) (loc_of_shr_record mrs1)) in *.
  assert (Hq1 : 0 <= shr_m mrs1).
  { rewrite Hm1. apply Z.div_pos; [assumption |].
    apply Float64Facts.pow2_pos. unfold Float64.kept_exp. lia. }
  assert (Hq2 : 0 <= q2) by lia.
  pose proof (Float64Facts.shr_fexp_spec q2 e1 loc_Exact Hq2) as [Hm2 _].
  destruct (shr_fexp Float64.prec Float64.emax q2 e1 loc_Exact) as [mrs2 e2].
  cbn [fst] in Hm2.
  assert (Hm3 : 0 <= shr_m mrs2).
  { rewrite Hm2. apply Z.div_pos; [assumption |].
    apply Float64Facts.pow2_pos. unfold Float64.kept_exp. lia. }
  destruct (shr_m mrs2) as [| m | m]; [reflexivity | | lia].
  destruct (Z.leb e2 (Float64.emax - Float64.prec)); reflexivity.
Qed.

(** Dividing a non-negative float by a negative one never gives a
    positive number. *)
Lemma div_by_negative (x r : spec_float) :
  Float64.ltb x Float64.zero = false ->
  Float64.is_finite x = true ->
  Float64.ltb r Float64.zero = true ->
  not_positive (Float64.div x r) = true.
Proof.
  intros Hx Hfin Hr.
  destruct r as [sr | sr | | sr mr er]; try discriminate.
  - destruct sr; [| discriminate].
    destruct x as [sx | sx | | sx mx ex]; try discriminate; reflexivity.
  - destruct sr; [| discriminate].
    destruct x as [sx | sx | | sx mx ex]; try discriminate.
    + reflexivity.
    + destruct sx; [discriminate |].
      unfold Float64.div, SFdiv, SFdiv_core_binary.
      match goal with
      | |- context [Z.div_eucl ?a ?b] =>
          assert (Ha : 0 <= a);
          [| pose proof (Z.div_pos a b Ha ltac:(lia)) as Hq;
             unfold Z.div in Hq; destruct (Z.div_eucl a b) as [q rem] ]
      end.
      { match goal with
        | |- 0 <= match ?sh with _ => _ end =>
            destruct sh; [lia | apply Z.shiftl_nonneg; lia | lia]
        end. }
      pose proof (binary_round_aux_sign (xorb false true) q
                    (Z.min (fexp Float64.prec Float64.emax
                              (Zdigits2 (Zpos mx) + ex - (Zdigits2 (Zpos mr) + er)))
                           (ex - er))
                    (new_location (Zpos mr) rem) Hq) as Hs.
      destruct (binary_round_aux _ _ _ _ _ _) as [s | s | | s m e];
        [reflexivity | exact Hs | contradiction | exact Hs].
Qed.

(** The ceiling of a float that is not positive is not positive. *)
Lemma math_ceil_not_positive (f : spec_float) (c : Z) :
  not_positive f = true -> math_ceil f = Ok c -> c <= 0.
Proof.
  destruct f as [s | s | | s m e]; cbn [not_positive math_ceil]; try discriminate.
  - intros _ [= <-]. lia.
  - intros -> [= <-]. cbn [cond_Zopp].
    destruct (Z.leb_spec 0 e) as [Hpos | Hneg].
    + pose proof (Float64Facts.pow2_pos e Hpos). nia.
    + rewrite Z.opp_involutive.
      pose proof (Float64Facts.pow2_pos (- e) ltac:(lia)).
      pose proof (Z.div_pos (Zpos m) (2 ^ (- e)) ltac:(lia) ltac:(lia)). lia.
Qed.

(** [float(s)] of a positive integer of at most 53 bits is a normal
    number that carries the value of [s]. *)
Lemma of_int_normal (s : Z) :
  0 < s <= 2 ^ 53 ->
  exists m e, Float64.of_int s = S754_finite false m e /\
              digits2_pos m = 53%positive /\
              -1073 <= e <= 971 /\
              Zpos m * 2 ^ (e + 1074) = s * 2 ^ 1074.
Proof.
  intros Hs.
  destruct (Float64Facts.of_int_small s Hs) as (m & e & Hx & Hb & Hval).
  exists m, e. split; [exact Hx |].
  pose proof (Float64Facts.bounded_inv m e Hb) as [Hd He]. cbn [Zdigits2] in Hd.
  unfold bounded, canonical_mantissa in Hb. rewrite Float64Facts.fexp_eq in Hb.
  apply andb_prop in Hb as [Hcan _]. apply Z.eqb_eq in Hcan.
  pose proof (Float64Facts.digits2_pos_bounds m) as [_ Hu].
  assert (Hne : e <> -1074).
  { intros ->. change (2 ^ (-1074 + 1074)) with 1 in Hval.
    assert (H53 : 2 ^ Zpos (digits2_pos m) <= 2 ^ 53) by (apply Float64Facts.pow2_le; lia).
    assert (Hbig : 2 ^ 53 <= 2 ^ 1074) by (apply Float64Facts.pow2_le; lia).
    pose proof (Float64Facts.pow2_pos 1074 ltac:(lia)). nia. }
  split; [| split; [lia | exact Hval]].
  assert (Hz : Zpos (digits2_pos m) = 53) by lia.
  injection Hz as Hz. exact Hz.
Qed.

(** Dividing a normal number by [1.0] gives the number back. *)
Lemma div_one_exact (m : positive) (e : Z) :
  digits2_pos m = 53%positive ->
  -1073 <= e <= 971 ->
  Float64.div (S754_finite false m e) Float64.one = S754_finite false m e.
Proof.
  intros Hd He.
  unfold Float64.div, Float64.one, SFdiv, SFdiv_core_binary.
  cbn [Zdigits2]. rewrite Hd.
  change (Zpos (digits2_pos 4503599627370496)) with 53.
  rewrite Float64Facts.fexp_eq.
  replace (Z.min (Z.max (53 + e - (53 + -52) - 53) (-1074)) (e - -52)) with (e - 1) by lia.
  replace (e - -52 - (e - 1)) with 53 by lia.
  cbv iota beta.
  rewrite Z.shiftl_mul_pow2 by lia.
  assert (Hdiv : Z.div_eucl (Zpos m * 2 ^ 53) (Zpos 4503599627370496) = (Zpos m~0, 0)).
  { pose proof (Z.div_eucl_eq (Zpos m * 2 ^ 53) (Zpos 4503599627370496) ltac:(lia)) as Heq.
    pose proof (Z.mod_pos_bound (Zpos m * 2 ^ 53) (Zpos 4503599627370496) ltac:(lia)) as Hb.
    unfold Z.modulo in Hb.
    destruct (Z.div_eucl (Zpos m * 2 ^ 53) (Zpos 4503599627370496)) as [q r].
    change (2 ^ 53) with (2 * 4503599627370496) in Heq.
    assert (q = Zpos m~0 /\ r = 0) as [-> ->] by nia.
    reflexivity. }
  rewrite Hdiv.
  change (new_location (Zpos 4503599627370496) 0) with loc_Exact.
  unfold binary_round_aux, shr_fexp.
  cbn [Zdigits2 digits2_pos]. rewrite Hd.
  change (Zpos (Pos.succ 53)) with 54.
  rewrite Float64Facts.fexp_eq.
  replace (Z.max (54 + (e - 1) - 53) (-1074) - (e - 1)) with 1 by lia.
  cbn [shr shr_record_of_loc SpecFloat.iter_pos shr_1 shr_m shr_r shr_s orb
       loc_of_shr_record round_nearest_even Zdigits2].
  rewrite Hd, Float64Facts.fexp_eq.
  replace (Z.max (53 + (e - 1 + 1) - 53) (-1074) - (e - 1 + 1)) with 0 by lia.
  cbn [shr shr_m].
  replace (e - 1 + 1) with e by lia.
  replace (Z.leb e (Float64.emax - Float64.prec)) with true
    by (symmetry; apply Z.leb_le; change (Float64.emax - Float64.prec) with 971; lia).
  reflexivity.
Qed.

(** The ceiling of a float that carries an integer is that integer. *)
Lemma math_ceil_exact (s : Z) (m : positive) (e : Z) :
  -1074 <= e ->
  Zpos m * 2 ^ (e + 1074) = s * 2 ^ 1074 ->
  math_ceil (S754_finite false m e) = Ok s.
Proof.
  intros He Hval. cbn [math_ceil cond_Zopp]. f_equal.
  pose proof (Float64Facts.pow2_pos 1074 ltac:(lia)) as H1074.
  destruct (Z.leb_spec 0 e) as [Hpos | Hneg].
  - rewrite (Float64Facts.pow2_split e 1074) in Hval by lia. nia.
  - replace (2 ^ 1074) with (2 ^ (- e + (e + 1074))) in Hval by (f_equal; lia).
    rewrite (Float64Facts.pow2_split (- e)) in Hval by lia.
    pose proof (Float64Facts.pow2_pos (e + 1074) ltac:(lia)).
    pose proof (Float64Facts.pow2_pos (- e) ltac:(lia)) as Hk.
    assert (Hm : Zpos m = s * 2 ^ (- e)) by nia.
    rewrite Hm. replace (- (s * 2 ^ (- e))) with ((- s) * 2 ^ (- e)) by lia.
    rewrite Z.div_mul by lia. lia.
Qed.

Section CropEdges.

Context `{Collaborators}.

(** [float(s)] of a size of at most 53 bits is zero or a positive normal
    number; in particular the conversion does not overflow. *)
Lemma float_of_int_size (s : Z) :
  0 <= s <= 2 ^ 53 ->
  float_of_int s = Ok (Float64.of_int s) /\
  Float64.ltb (Float64.of_int s) Float64.zero = false /\
  Float64.is_finite (Float64.of_int s) = true.
Proof.
  intros Hs. destruct (Z.eq_dec s 0) as [-> | Hne].
  - repeat split.
  - destruct (of_int_normal s ltac:(lia)) as (m & e & Hx & _).
    unfold float_of_int. rewrite Hx. repeat split.
Qed.

(** X1: with the crop ratio [1.0] of the default configuration the resize
    target is the target size itself: the pipeline resizes the shorter
    side to [s] and crops [s]. *)
Theorem unit_ratio_resize_is_size (self : provider) (arg : option (Z * Z))
    (w : world) (name : pyval) (mode : InterpolationMode) :
  let s := fst (size_or arg (DataProvider.active_image_size (base self))) in
  getitem (config_of self w) "test_crop_ratio" = Ok (VFloat Float64.one) ->
  getitem (config_of self w) "test_interpolate" = Ok name ->
  get_interpolate name = Ok mode ->
  0 <= s <= 2 ^ 53 ->
  build_valid_transform self arg w =
    (Ok [ Resize s mode;
          CenterCrop s;
          ToTensor;
          Normalize (DataProvider.mean (base self)) (DataProvider.std (base self)) ],
     w).
Proof.
  intros s Hratio Hname Hmode Hs.
  rewrite build_valid_transform_eq. fold s. cbv zeta.
  rewrite Hratio. cbn [result_bind].
  assert (Hceil : (quotient <- truediv s (VFloat Float64.one) ;; math_ceil quotient)%result
                  = Ok s).
  { destruct (Z.eq_dec s 0) as [Hz | Hne].
    - rewrite Hz. reflexivity.
    - destruct (of_int_normal s ltac:(lia)) as (m & e & Hx & Hd & He & Hval).
      unfold truediv, float_of_int. rewrite Hx. cbn [result_bind float_truediv Float64.one].
      fold Float64.one. rewrite (div_one_exact m e Hd He).
      apply math_ceil_exact; [lia | exact Hval]. }
  destruct (truediv s (VFloat Float64.one)) as [quotient | e]; [| discriminate].
  cbn [result_bind] in *. rewrite Hceil. cbn [result_bind].
  rewrite Hname. cbn [result_bind]. rewrite Hmode. reflexivity.
Qed.

(** X2: a negative crop ratio is not rejected as such.  For such a ratio
    and a known interpolation name, [build_valid_transform] raises the
    overflow error of [math.ceil] when the quotient [s / r] is infinite,
    and otherwise returns a pipeline whose resize target is zero or
    negative, followed by the center crop of size [s]. *)
Theorem negative_ratio_outcome (self : provider) (arg : option (Z * Z))
    (w : world) (r : spec_float) (name : pyval) (mode : InterpolationMode) :
  let s := fst (size_or arg (DataProvider.active_image_size (base self))) in
  getitem (config_of self w) "test_crop_ratio" = Ok (VFloat r) ->
  getitem (config_of self w) "test_interpolate" = Ok name ->
  get_interpolate name = Ok mode ->
  Float64.ltb r Float64.zero = true ->
  0 <= s <= 2 ^ 53 ->
  (Float64.is_finite (Float64.div (Float64.of_int s) r) = false /\
   build_valid_transform self arg w = (Raise OverflowError, w)) \/
  (exists crop_size,
     math_ceil (Float64.div (Float64.of_int s) r) = Ok crop_size /\
     crop_size <= 0 /\
     build_valid_transform self arg w =
       (Ok [ Resize crop_size mode;
             CenterCrop s;
             ToTensor;
             Normalize (DataProvider.mean (base self)) (DataProvider.std (base self)) ],
        w)).
Proof.
  intros s Hratio Hname Hmode Hneg Hs.
  rewrite build_valid_transform_eq. fold s. cbv zeta.
  rewrite Hratio. cbn [result_bind].
  destruct (float_of_int_size s Hs) as (Hconv & Hsign & Hfin).
  unfold truediv. rewrite Hconv. cbn [result_bind].
  assert (Hdiv : float_truediv (Float64.of_int s) r = Ok (Float64.div (Float64.of_int s) r)).
  { destruct r as [sr | sr | | sr mr er]; try reflexivity. discriminate. }
  rewrite Hdiv. cbn [result_bind].
  pose proof (div_by_negative (Float64.of_int s) r Hsign Hfin Hneg) as Hnp.
  destruct (Float64.div (Float64.of_int s) r) as [sq | sq | | sq mq xq] eqn:Hq;
    try discriminate.
  - right. exists 0. split; [reflexivity |]. split; [lia |].
    cbn [math_ceil result_bind]. rewrite Hname. cbn [result_bind].
    rewrite Hmode. reflexivity.
  - left. split; reflexivity.
  - right.
    destruct (math_ceil (S754_finite sq mq xq)) as [c | e] eqn:Hc; [| discriminate].
    exists c. split; [reflexivity |].
    split; [exact (math_ceil_not_positive (S754_finite sq mq xq) c Hnp Hc) |].
    cbn [result_bind]. rewrite Hname. cbn [result_bind]. rewrite Hmode. reflexivity.
Qed.

(** X3: a crop ratio that is zero, as an integer or as a float of either
    sign, makes [build_valid_transform] raise the division error, whatever
    the interpolation name is, and the world is left as it was. *)
Theorem zero_ratio_raises (self : provider) (arg : option (Z * Z)) (w : world)
    (ratio : pyval) :
  let s := fst (size_or arg (DataProvider.active_image_size (base self))) in
  getitem (config_of self w) "test_crop_ratio" = Ok ratio ->
  is_zero ratio = true ->
  0 <= s <= 2 ^ 53 ->
  build_valid_transform self arg w = (Raise ZeroDivisionError, w).
Proof.
  intros s Hratio Hzero Hs.
  rewrite build_valid_transform_eq. fold s. cbv zeta.
  rewrite Hratio. cbn [result_bind].
  destruct ratio as [k | f | t]; cbn [is_zero] in Hzero; try discriminate.
  - destruct k; try discriminate. reflexivity.
  - destruct f as [sg | | |]; try discriminate.
    destruct (float_of_int_size s Hs) as (Hconv & _).
    unfold truediv. rewrite Hconv. reflexivity.
Qed.

(** X4: only the first component of the image size is used: sizes that
    agree on it build the same evaluation pipeline, and an explicit size
    whose first component is that of the active size can be left out. *)
Theorem valid_transform_uses_first_component (self : provider) (w : world)
    (height width other : Z) :
  build_valid_transform self (Some (height, width)) w
    = build_valid_transform self (Some (height, other)) w /\
  build_valid_transform self
      (Some (fst (DataProvider.active_image_size (base self)), width)) w
    = build_valid_transform self None w.
Proof. rewrite !build_valid_transform_eq. split; reflexivity. Qed.

End CropEdges.

(** ** The training pipeline as a whole *)

Section TrainPipeline.

Context `{Collaborators}.

(** The loop body against the error of the config. *)
Lemma aug_body_eq (self : provider) (op : dict) (post_aug : list transform) :
  aug_body self op post_aug =
    match op_error op with
    | Some e => Raise e
    | None =>
        if is_op "randaug" op
        then Ok (Some (RandAug op (DataProvider.mean (base self))), post_aug)
        else Ok (None, post_aug ++ erasures_of [op])
    end.
Proof.
  unfold aug_body, op_error, is_op, getitem, result_bind. cbn [erasures_of].
  unfold is_op.
  destruct (op !! "name") as [name |]; [| reflexivity].
  destruct (py_eq_str name "randaug") eqn:Hrand; [reflexivity |].
  destruct (py_eq_str name "erase") eqn:Herase; [| reflexivity].
  destruct (op !! "p") as [p |]; reflexivity.
Qed.

Lemma erasures_of_randaug (op : dict) (rest : list dict) :
  is_op "randaug" op = true -> erasures_of (op :: rest) = erasures_of rest.
Proof.
  unfold is_op. cbn [erasures_of]. unfold is_op.
  destruct (op !! "name") as [name |]; [| discriminate].
  intros Hrand. apply py_eq_str_true in Hrand. subst name. reflexivity.
Qed.

Lemma erasures_of_cons (op : dict) (rest : list dict) :
  erasures_of (op :: rest) = erasures_of [op] ++ erasures_of rest.
Proof.
  cbn [erasures_of].
  destruct (if is_op "erase" op then op !! "p" else None); reflexivity.
Qed.

(** The loop against the declarative pipeline. *)
Lemma aug_loop_eq (self : provider) (ops : list dict) :
  forall train_transforms post_aug,
    aug_loop self ops train_transforms post_aug =
      match first_error ops with
      | Some e => Raise e
      | None =>
          Ok (train_transforms
                ++ List.map (fun op => RandAug op (DataProvider.mean (base self)))
                     (List.filter (is_op "randaug") ops),
              post_aug ++ erasures_of ops)
      end.
Proof.
  induction ops as [| op rest IH]; intros train_transforms post_aug.
  - cbn. rewrite !app_nil_r. reflexivity.
  - cbn [aug_loop first_error]. rewrite aug_body_eq.
    destruct (op_error op) as [e |]; [reflexivity |].
    cbn [List.filter].
    destruct (is_op "randaug" op) eqn:Hrand; cbn [result_bind fst snd]; rewrite IH;
      (destruct (first_error rest); [reflexivity |]).
    + rewrite (erasures_of_randaug op rest Hrand).
      cbn [List.map]. rewrite <- List.app_assoc. reflexivity.
    + rewrite (erasures_of_cons op rest), <- List.app_assoc. reflexivity.
Qed.

(** X5: [build_train_transform] computes the declarative pipeline: it
    raises the error of the first config that has one (a missing name, an
    erase config without ["p"], an unknown name), and otherwise returns the
    geometric operators, the randaug operators, tensor conversion,
    normalization and the erasures, in this order. *)
Theorem build_train_transform_refines (self : provider) (arg : option (Z * Z))
    (w : world) (interpolation : pyval) :
  getitem (config_of self w) "train_interpolate" = Ok interpolation ->
  build_train_transform self arg w =
    (match first_error (aug_ops self) with
     | Some e => Raise e
     | None => Ok (train_pipeline self interpolation (aug_ops self))
     end,
     w).
Proof.
  intros Hg. rewrite build_train_transform_eq, Hg. cbn [result_bind].
  unfold aug_ops, train_pipeline.
  destruct (data_aug self) as [spec |]; [| reflexivity].
  rewrite aug_loop_eq.
  destruct (first_error (val2list spec)); reflexivity.
Qed.

Lemma first_error_well_formed (ops : list dict) :
  first_error ops = None <-> forallb well_formed_op ops = true.
Proof.
  induction ops as [| op rest IH]; [split; reflexivity |].
  cbn [first_error forallb].
  assert (Hop : op_error op = None <-> well_formed_op op = true).
  { unfold op_error, well_formed_op, is_op.
    destruct (op !! "name") as [name |]; [| split; discriminate].
    destruct (py_eq_str name "randaug"); [split; reflexivity |].
    destruct (py_eq_str name "erase"); [| split; discriminate].
    destruct (op !! "p"); split; (reflexivity || discriminate). }
  destruct (op_error op) as [e |].
  - split; [discriminate |]. intros Hall. apply andb_prop in Hall as [Hwf _].
    apply Hop in Hwf. discriminate.
  - rewrite (proj1 Hop eq_refl). cbn [andb]. exact IH.
Qed.

Lemma train_pipeline_length (self : provider) (interpolation : pyval) (ops : list dict) :
  forallb well_formed_op ops = true ->
  length (train_pipeline self interpolation ops) = (4 + length ops)%nat.
Proof.
  intros Hall. unfold train_pipeline.
  rewrite !length_app, length_map. cbn [length].
  enough (Hsum : (length (List.filter (is_op "randaug") ops)
                  + length (erasures_of ops) = length ops)%nat) by lia.
  induction ops as [| op rest IH]; [reflexivity |].
  cbn [forallb] in Hall. apply andb_prop in Hall as [Hwf Hrest].
  specialize (IH Hrest). cbn [List.filter].
  unfold well_formed_op in Hwf.
  destruct (is_op "randaug" op) eqn:Hrand.
  - rewrite (erasures_of_randaug op rest Hrand). cbn [length]. lia.
  - cbn [orb] in Hwf. apply andb_prop in Hwf as [Herase Hp].
    cbn [erasures_of]. rewrite Herase.
    destruct (op !! "p"); [cbn [length]; lia | discriminate].
Qed.

(** X6: a pipeline is returned exactly when every config is a randaug
    config or an erase config with its probability, and then every config
    contributes one stage: the pipeline has four stages more than there
    are configs.  Otherwise the builder raises. *)
Theorem build_train_transform_accepts (self : provider) (arg : option (Z * Z))
    (w : world) (interpolation : pyval) :
  getitem (config_of self w) "train_interpolate" = Ok interpolation ->
  if forallb well_formed_op (aug_ops self)
  then exists pipeline,
         build_train_transform self arg w = (Ok pipeline, w) /\
         length pipeline = (4 + length (aug_ops self))%nat
  else exists e, build_train_transform self arg w = (Raise e, w).
Proof.
  intros Hg. rewrite build_train_transform_eq, Hg. cbn [result_bind].
  assert (Hloop : match data_aug self with
                  | Some spec =>
                      aug_loop self (val2list spec)
                        [MyRandomResizedCrop interpolation; RandomHorizontalFlip] []
                  | None =>
                      Ok ([MyRandomResizedCrop interpolation; RandomHorizontalFlip], [])
                  end
                  = match first_error (aug_ops self) with
                    | Some e => Raise e
                    | None =>
                        Ok ([MyRandomResizedCrop interpolation; RandomHorizontalFlip]
                              ++ List.map (fun op => RandAug op (DataProvider.mean (base self)))
                                   (List.filter (is_op "randaug") (aug_ops self)),
                            [] ++ erasures_of (aug_ops self))
                    end).
  { unfold aug_ops. destruct (data_aug self) as [spec |]; [apply aug_loop_eq | reflexivity]. }
  rewrite Hloop. clear Hloop.
  destruct (forallb well_formed_op (aug_ops self)) eqn:Hall.
  - rewrite (proj2 (first_error_well_formed _) Hall). cbn [result_bind fst snd].
    eexists. split; [reflexivity |].
    apply (train_pipeline_length self interpolation _ Hall).
  - destruct (first_error (aug_ops self)) as [e |] eqn:Herr.
    + exists e. reflexivity.
    + apply first_error_well_formed in Herr. congruence.
Qed.

End TrainPipeline.

(** ** Providers and their configuration objects *)

Section Isolation.

Context `{Collaborators}.

(** A constructor call leaves every object that is already in the heap as
    it is. *)
Lemma construct_frame (a : init_args) (w : world) (l : loc) :
  (l < length (heap w))%nat ->
  heap (snd (construct a w)) !! l = heap w !! l /\
  (length (heap w) < length (heap (snd (construct a w))))%nat.
Proof.
  intros Hl. unfold construct. rewrite init_spec. cbn [snd heap].
  rewrite lookup_app_l by exact Hl. rewrite length_app. cbn [length].
  split; [reflexivity | lia].
Qed.

Lemma construct_all_frame (calls : list init_args) (w : world) (l : loc) :
  (l < length (heap w))%nat ->
  heap (construct_all calls w) !! l = heap w !! l.
Proof.
  revert w. induction calls as [| a rest IH]; intros w Hl; cbn [construct_all].
  - reflexivity.
  - destruct (construct_frame a w l Hl) as [Hsame Hgrow].
    rewrite IH by lia. exact Hsame.
Qed.

(** X7: every provider has a configuration object of its own: the
    dictionary a provider was constructed with is not changed by any later
    constructor call, and a provider constructed later refers to another
    object. *)
Theorem provider_config_is_private (dd : option string) (rc : option dict)
    (da : option aug_spec) (args : DataProvider.args) (vd : string) (nc : Z)
    (w : world) (later : list init_args) (next : init_args) :
  class_ok w ->
  exists self w',
    init dd rc da args vd nc w = (Ok self, w') /\
    config_of self (construct_all later w') = default ∅ rc ∪ default_rrc_config /\
    exists other w'',
      construct next (construct_all later w') = (Ok other, w'') /\
      rrc_config other <> rrc_config self /\
      config_of self w'' = default ∅ rc ∪ default_rrc_config.
Proof.
  intros Hok.
  destruct (config_of_init dd rc da args vd nc w Hok) as (self & w' & Hi & Hc & _).
  exists self, w'. split; [exact Hi |].
  assert (Hl : (rrc_config self < length (heap w'))%nat).
  { rewrite init_spec in Hi. injection Hi as <- <-. cbn [rrc_config heap].
    rewrite length_app. cbn [length]. lia. }
  assert (Hkeep : config_of self (construct_all later w') = default ∅ rc ∪ default_rrc_config).
  { unfold config_of in *. rewrite construct_all_frame by exact Hl. exact Hc. }
  split; [exact Hkeep |].
  assert (Hl' : (rrc_config self < length (heap (construct_all later w')))%nat).
  { apply lookup_lt_is_Some. rewrite construct_all_frame by exact Hl.
    apply lookup_lt_is_Some. exact Hl. }
  destruct (construct_frame next (construct_all later w') (rrc_config self) Hl')
    as [Hsame _].
  unfold construct in *. rewrite init_spec in *. eexists _, _.
  split; [reflexivity |]. cbn [rrc_config snd] in *.
  split; [lia |].
  unfold config_of in *. rewrite Hsame. exact Hkeep.
Qed.

(** X8: the directory a constructed provider keeps is never empty, so the
    conventional layout never reads the relative paths [train] and [val]:
    the sub-directories are [data_dir] followed by one separator, unless
    it ends with one, and the name. *)
Theorem data_dir_never_empty (dd : option string) (rc : option dict)
    (da : option aug_spec) (args : DataProvider.args) (vd : string) (nc : Z)
    (w : world) :
  exists self w',
    init dd rc da args vd nc w = (Ok self, w') /\
    data_dir self <> "" /\
    os_path_join (data_dir self) "train" =
      (if ends_with_sep (data_dir self) then data_dir self +:+ "train"
       else data_dir self +:+ "/train") /\
    os_path_join (data_dir self) "val" =
      (if ends_with_sep (data_dir self) then data_dir self +:+ "val"
       else data_dir self +:+ "/val").
Proof.
  rewrite init_spec. eexists _, _. split; [reflexivity |]. cbn [data_dir].
  assert (Hne : str_or dd class_data_dir <> "").
  { destruct dd as [[| c rest] |]; cbn; discriminate. }
  split; [exact Hne |].
  unfold os_path_join. change (String.prefix "/" "train") with false.
  change (String.prefix "/" "val") with false. cbv iota.
  destruct (String.eqb_spec (str_or dd class_data_dir) "") as [Heq | _];
    [contradiction |].
  cbn [orb]. split; reflexivity.
Qed.

End Isolation.

(** ** The substring test *)








(** ** What [build_datasets] does to the world *)

Section DatasetEffects.

Context `{Collaborators}.


(** X11: when the training directory cannot be enumerated,
    [build_datasets] raises the loader's error as it is, after that one
    enumeration: the test directory is not touched. *)
Theorem train_folder_failure (self : provider) (w : world)
    (train_transform valid_transform : Compose) (e : exn) :
  build_train_transform self None w = (Ok train_transform, w) ->
  build_valid_transform self None w = (Ok valid_transform, w) ->
  find_samples (fst (layout self)) = Raise e ->
  build_datasets self w =
    (Raise e, {| heap := heap w; scans := scans w ++ [fst (layout self)] |}).
Proof.
  intros Ht Hv Hf. rewrite build_datasets_eq, Ht, Hv. cbn [fst].
  rewrite Hf. reflexivity.
Qed.

(** X12: when both pipelines are built, both directories are enumerated
    and the held-out split goes through, [build_datasets] returns the two
    subsets of the split and the test dataset: the training folder carries
    the training pipeline, the test folder the evaluation pipeline, and
    the split is asked with the evaluation pipeline. *)
Theorem build_datasets_returns (self : provider) (w : world)
    (train_transform valid_transform : Compose)
    (found_train found_test : list (string * Z)) (train_subset val_subset : dataset) :
  build_train_transform self None w = (Ok train_transform, w) ->
  build_valid_transform self None w = (Ok valid_transform, w) ->
  find_samples (fst (layout self)) = Ok found_train ->
  find_samples (snd (layout self)) = Ok found_test ->
  sample_val_dataset self
    (Build_dataset (fst (layout self)) found_train train_transform) valid_transform
    = Ok (train_subset, val_subset) ->
  build_datasets self w =
    (Ok (train_subset, val_subset,
         Build_dataset (snd (layout self)) found_test valid_transform),
     {| heap := heap w;
        scans := scans w ++ [fst (layout self); snd (layout self)] |}).
Proof.
  intros Ht Hv Hft Hfs Hsplit. rewrite build_datasets_eq, Ht, Hv. cbn [fst].
  rewrite Hft. cbv zeta. rewrite Hfs, Hsplit. reflexivity.
Qed.

End DatasetEffects.

(** ** The further properties at work on concrete providers *)


Lemma unit_ratio_resize_is_size_witness :
  (getitem (config_of (fst (demo_provider None None None ""))
              (snd (demo_provider None None None ""))) "test_crop_ratio"
     = Ok (VFloat Float64.one) /\
   getitem (config_of (fst (demo_provider None None None ""))
              (snd (demo_provider None None None ""))) "test_interpolate"
     = Ok (VStr "bicubic") /\
   demo_get_interpolate (VStr "bicubic") = Ok BICUBIC /\
   0 <= 192 <= 2 ^ 53) /\
  @build_valid_transform demo (fst (demo_provider None None None "")) (Some (192, 256))
    (snd (demo_provider None None None ""))
  = (Ok [ Resize 192 BICUBIC; CenterCrop 192; ToTensor; Normalize demo_mean demo_std ],
     snd (demo_provider None None None "")).
Proof.
  assert (H1 : getitem (config_of (fst (demo_provider None None None ""))
              (snd (demo_provider None None None ""))) "test_crop_ratio"
     = Ok (VFloat Float64.one)) by (vm_compute; reflexivity).
  assert (H2 : getitem (config_of (fst (demo_provider None None None ""))
              (snd (demo_provider None None None ""))) "test_interpolate"
     = Ok (VStr "bicubic")) by (vm_compute; reflexivity).
  assert (H3 : demo_get_interpolate (VStr "bicubic") = Ok BICUBIC) by reflexivity.
  assert (H4 : 0 <= 192 <= 2 ^ 53) by (split; vm_compute; discriminate).
  split; [exact (conj H1 (conj H2 (conj H3 H4))) |].
  exact (@unit_ratio_resize_is_size demo _ (Some (192, 256)) _ (VStr "bicubic") BICUBIC
           H1 H2 H3 H4).
Defined.

Lemma negative_ratio_outcome_witness :
  (getitem (config_of (fst (demo_provider None (Some {[ "test_crop_ratio" := VFloat minus_tiny ]}) None ""))
              (snd (demo_provider None (Some {[ "test_crop_ratio" := VFloat minus_tiny ]}) None "")))
     "test_crop_ratio" = Ok (VFloat minus_tiny) /\
   getitem (config_of (fst (demo_provider None (Some {[ "test_crop_ratio" := VFloat minus_tiny ]}) None ""))
              (snd (demo_provider None (Some {[ "test_crop_ratio" := VFloat minus_tiny ]}) None "")))
     "test_interpolate" = Ok (VStr "bicubic") /\
   demo_get_interpolate (VStr "bicubic") = Ok BICUBIC /\
   Float64.ltb minus_tiny Float64.zero = true /\
   0 <= 224 <= 2 ^ 53) /\
  ((Float64.is_finite (Float64.div (Float64.of_int 224) minus_tiny) = false /\
    @build_valid_transform demo
      (fst (demo_provider None (Some {[ "test_crop_ratio" := VFloat minus_tiny ]}) None ""))
      (Some (224, 224))
      (snd (demo_provider None (Some {[ "test_crop_ratio" := VFloat minus_tiny ]}) None ""))
    = (Raise OverflowError,
       snd (demo_provider None (Some {[ "test_crop_ratio" := VFloat minus_tiny ]}) None ""))) \/
   (exists crop_size,
      math_ceil (Float64.div (Float64.of_int 224) minus_tiny) = Ok crop_size /\
      crop_size <= 0 /\
      @build_valid_transform demo
        (fst (demo_provider None (Some {[ "test_crop_ratio" := VFloat minus_tiny ]}) None ""))
        (Some (224, 224))
        (snd (demo_provider None (Some {[ "test_crop_ratio" := VFloat minus_tiny ]}) None ""))
      = (Ok [ Resize crop_size BICUBIC; CenterCrop 224; ToTensor;
              Normalize demo_mean demo_std ],
         snd (demo_provider None (Some {[ "test_crop_ratio" := VFloat minus_tiny ]}) None "")))).
Proof.
  assert (H1 : getitem (config_of (fst (demo_provider None (Some {[ "test_crop_ratio" := VFloat minus_tiny ]}) None ""))
              (snd (demo_provider None (Some {[ "test_crop_ratio" := VFloat minus_tiny ]}) None "")))
     "test_crop_ratio" = Ok (VFloat minus_tiny)) by (vm_compute; reflexivity).
  assert (H2 : getitem (config_of (fst (demo_provider None (Some {[ "test_crop_ratio" := VFloat minus_tiny ]}) None ""))
              (snd (demo_provider None (Some {[ "test_crop_ratio" := VFloat minus_tiny ]}) None "")))
     "test_interpolate" = Ok (VStr "bicubic")) by (vm_compute; reflexivity).
  assert (H3 : demo_get_interpolate (VStr "bicubic") = Ok BICUBIC) by reflexivity.
  assert (H4 : Float64.ltb minus_tiny Float64.zero = true) by reflexivity.
  assert (H5 : 0 <= 224 <= 2 ^ 53) by (split; vm_compute; discriminate).
  split; [exact (conj H1 (conj H2 (conj H3 (conj H4 H5)))) |].
  exact (@negative_ratio_outcome demo _ (Some (224, 224)) _ minus_tiny (VStr "bicubic")
           BICUBIC H1 H2 H3 H4 H5).
Defined.

(** Both outcomes of a negative ratio occur: [-1.0] gives a resize to
    [-224], the smallest negative float raises. *)
Example negative_ratio_both_outcomes :
  fst (@build_valid_transform demo
         (fst (demo_provider None (Some {[ "test_crop_ratio" := VFloat minus_one ]}) None ""))
         (Some (224, 224))
         (snd (demo_provider None (Some {[ "test_crop_ratio" := VFloat minus_one ]}) None "")))
    = Ok [ Resize (-224) BICUBIC; CenterCrop 224; ToTensor; Normalize demo_mean demo_std ] /\
  fst (@build_valid_transform demo
         (fst (demo_provider None (Some {[ "test_crop_ratio" := VFloat minus_tiny ]}) None ""))
         (Some (224, 224))
         (snd (demo_provider None (Some {[ "test_crop_ratio" := VFloat minus_tiny ]}) None "")))
    = Raise OverflowError.
Proof. split; vm_compute; reflexivity. Qed.

Lemma zero_ratio_raises_witness :
  (getitem (config_of (fst (demo_provider None (Some {[ "test_crop_ratio" := VFloat (S754_zero true) ]}) None ""))
              (snd (demo_provider None (Some {[ "test_crop_ratio" := VFloat (S754_zero true) ]}) None "")))
     "test_crop_ratio" = Ok (VFloat (S754_zero true)) /\
   is_zero (VFloat (S754_zero true)) = true /\
   0 <= 224 <= 2 ^ 53) /\
  @build_valid_transform demo
    (fst (demo_provider None (Some {[ "test_crop_ratio" := VFloat (S754_zero true) ]}) None ""))
    None
    (snd (demo_provider None (Some {[ "test_crop_ratio" := VFloat (S754_zero true) ]}) None ""))
  = (Raise ZeroDivisionError,
     snd (demo_provider None (Some {[ "test_crop_ratio" := VFloat (S754_zero true) ]}) None "")).
Proof.
  assert (H1 : getitem (config_of (fst (demo_provider None (Some {[ "test_crop_ratio" := VFloat (S754_zero true) ]}) None ""))
              (snd (demo_provider None (Some {[ "test_crop_ratio" := VFloat (S754_zero true) ]}) None "")))
     "test_crop_ratio" = Ok (VFloat (S754_zero true))) by (vm_compute; reflexivity).
  assert (H2 : is_zero (VFloat (S754_zero true)) = true) by reflexivity.
  assert (H3 : 0 <= 224 <= 2 ^ 53) by (split; vm_compute; discriminate).
  split; [exact (conj H1 (conj H2 H3)) |].
  exact (@zero_ratio_raises demo _ None _ _ H1 H2 H3).
Defined.

Lemma build_train_transform_refines_witness :
  getitem (config_of (fst (demo_provider None None (Some (AugList [erase_op; cutmix_op; randaug_op])) ""))
             (snd (demo_provider None None (Some (AugList [erase_op; cutmix_op; randaug_op])) "")))
    "train_interpolate" = Ok (VStr "random") /\
  build_train_transform
    (fst (demo_provider None None (Some (AugList [erase_op; cutmix_op; randaug_op])) ""))
    None
    (snd (demo_provider None None (Some (AugList [erase_op; cutmix_op; randaug_op])) ""))
  = (match first_error [erase_op; cutmix_op; randaug_op] with
     | Some e => Raise e
     | None =>
         Ok (train_pipeline
               (fst (demo_provider None None
                       (Some (AugList [erase_op; cutmix_op; randaug_op])) ""))
               (VStr "random") [erase_op; cutmix_op; randaug_op])
     end,
     snd (demo_provider None None (Some (AugList [erase_op; cutmix_op; randaug_op])) "")).
Proof.
  assert (H1 : getitem (config_of (fst (demo_provider None None (Some (AugList [erase_op; cutmix_op; randaug_op])) ""))
             (snd (demo_provider None None (Some (AugList [erase_op; cutmix_op; randaug_op])) "")))
    "train_interpolate" = Ok (VStr "random")) by (vm_compute; reflexivity).
  split; [exact H1 |].
  exact (build_train_transform_refines _ None _ _ H1).
Defined.

Lemma build_train_transform_accepts_witness :
  getitem (config_of (fst (demo_provider None None (Some (AugList [erase_op; randaug_op])) ""))
             (snd (demo_provider None None (Some (AugList [erase_op; randaug_op])) "")))
    "train_interpolate" = Ok (VStr "random") /\
  exists pipeline,
    build_train_transform
      (fst (demo_provider None None (Some (AugList [erase_op; randaug_op])) ""))
      None
      (snd (demo_provider None None (Some (AugList [erase_op; randaug_op])) ""))
    = (Ok pipeline,
       snd (demo_provider None None (Some (AugList [erase_op; randaug_op])) "")) /\
    length pipeline = (4 + 2)%nat.
Proof.
  assert (H1 : getitem (config_of (fst (demo_provider None None (Some (AugList [erase_op; randaug_op])) ""))
             (snd (demo_provider None None (Some (AugList [erase_op; randaug_op])) "")))
    "train_interpolate" = Ok (VStr "random")) by (vm_compute; reflexivity).
  split; [exact H1 |].
  exact (build_train_transform_accepts
           (fst (demo_provider None None (Some (AugList [erase_op; randaug_op])) ""))
           None _ _ H1).
Defined.

Lemma provider_config_is_private_witness :
  class_ok class_world /\
  exists self w',
    @init demo None (Some {[ "test_interpolate" := VStr "bilinear" ]}) None demo_args ""
      1000 class_world = (Ok self, w') /\
    config_of self (@construct_all demo [demo_call] w')
      = default ∅ (Some ({[ "test_interpolate" := VStr "bilinear" ]} : dict))
          ∪ default_rrc_config /\
    exists other w'',
      @construct demo demo_call (@construct_all demo [demo_call] w') = (Ok other, w'') /\
      rrc_config other <> rrc_config self /\
      config_of self w''
        = default ∅ (Some ({[ "test_interpolate" := VStr "bilinear" ]} : dict))
            ∪ default_rrc_config.
Proof.
  assert (H1 : class_ok class_world) by reflexivity.
  split; [exact H1 |].
  exact (@provider_config_is_private demo None
           (Some {[ "test_interpolate" := VStr "bilinear" ]}) None demo_args "" 1000
           class_world [demo_call] demo_call H1).
Defined.

Lemma train_folder_failure_witness :
  (build_train_transform (fst (demo_provider None None None ""))
     None (snd (demo_provider None None None ""))
   = (Ok demo_train_transform, snd (demo_provider None None None "")) /\
   @build_valid_transform offline (fst (demo_provider None None None ""))
     None (snd (demo_provider None None None ""))
   = (Ok demo_valid_transform, snd (demo_provider None None None "")) /\
   @find_samples offline (fst (layout (fst (demo_provider None None None ""))))
   = Raise (FileNotFoundError "/dataset/imagenet/train")) /\
  @build_datasets offline (fst (demo_provider None None None ""))
    (snd (demo_provider None None None ""))
  = (Raise (FileNotFoundError "/dataset/imagenet/train"),
     {| heap := heap (snd (demo_provider None None None ""));
        scans := scans (snd (demo_provider None None None ""))
                   ++ [fst (layout (fst (demo_provider None None None "")))] |}).
Proof.
  assert (H1 : build_train_transform (fst (demo_provider None None None ""))
     None (snd (demo_provider None None None ""))
   = (Ok demo_train_transform, snd (demo_provider None None None "")))
    by (vm_compute; reflexivity).
  assert (H2 : @build_valid_transform offline (fst (demo_provider None None None ""))
     None (snd (demo_provider None None None ""))
   = (Ok demo_valid_transform, snd (demo_provider None None None "")))
    by (vm_compute; reflexivity).
  assert (H3 : @find_samples offline (fst (layout (fst (demo_provider None None None ""))))
   = Raise (FileNotFoundError "/dataset/imagenet/train")) by (vm_compute; reflexivity).
  split; [exact (conj H1 (conj H2 H3)) |].
  exact (@train_folder_failure offline _ _ _ _ _ H1 H2 H3).
Defined.

Lemma build_datasets_returns_witness :
  (build_train_transform (fst (demo_provider None None None ""))
     None (snd (demo_provider None None None ""))
   = (Ok demo_train_transform, snd (demo_provider None None None "")) /\
   @build_valid_transform demo (fst (demo_provider None None None ""))
     None (snd (demo_provider None None None ""))
   = (Ok demo_valid_transform, snd (demo_provider None None None "")) /\
   demo_find_samples (fst (layout (fst (demo_provider None None None ""))))
   = Ok [("/dataset/imagenet/train/n01440764/0.JPEG", 0)] /\
   demo_find_samples (snd (layout (fst (demo_provider None None None ""))))
   = Ok [("/dataset/imagenet/val/n01440764/0.JPEG", 0)] /\
   demo_sample_val (fst (demo_provider None None None ""))
     (Build_dataset (fst (layout (fst (demo_provider None None None ""))))
        [("/dataset/imagenet/train/n01440764/0.JPEG", 0)] demo_train_transform)
     demo_valid_transform
   = Ok (Build_dataset "/dataset/imagenet/train"
           [("/dataset/imagenet/train/n01440764/0.JPEG", 0)] demo_train_transform,
         Build_dataset "/dataset/imagenet/train" [] demo_valid_transform)) /\
  @build_datasets demo (fst (demo_provider None None None ""))
    (snd (demo_provider None None None ""))
  = (Ok (Build_dataset "/dataset/imagenet/train"
           [("/dataset/imagenet/train/n01440764/0.JPEG", 0)] demo_train_transform,
         Build_dataset "/dataset/imagenet/train" [] demo_valid_transform,
         Build_dataset (snd (layout (fst (demo_provider None None None ""))))
           [("/dataset/imagenet/val/n01440764/0.JPEG", 0)] demo_valid_transform),
     {| heap := heap (snd (demo_provider None None None ""));
        scans := scans (snd (demo_provider None None None ""))
                   ++ [fst (layout (fst (demo_provider None None None "")));
                       snd (layout (fst (demo_provider None None None "")))] |}).
Proof.
  assert (H1 : build_train_transform (fst (demo_provider None None None ""))
     None (snd (demo_provider None None None ""))
   = (Ok demo_train_transform, snd (demo_provider None None None "")))
    by (vm_compute; reflexivity).
  assert (H2 : @build_valid_transform demo (fst (demo_provider None None None ""))
     None (snd (demo_provider None None None ""))
   = (Ok demo_valid_transform, snd (demo_provider None None None "")))
    by (vm_compute; reflexivity).
  assert (H3 : demo_find_samples (fst (layout (fst (demo_provider None None None ""))))
   = Ok [("/dataset/imagenet/train/n01440764/0.JPEG", 0)]) by (vm_compute; reflexivity).
  assert (H4 : demo_find_samples (snd (layout (fst (demo_provider None None None ""))))
   = Ok [("/dataset/imagenet/val/n01440764/0.JPEG", 0)]) by (vm_compute; reflexivity).
  assert (H5 : demo_sample_val (fst (demo_provider None None None ""))
     (Build_dataset (fst (layout (fst (demo_provider None None None ""))))
        [("/dataset/imagenet/train/n01440764/0.JPEG", 0)] demo_train_transform)
     demo_valid_transform
   = Ok (Build_dataset "/dataset/imagenet/train"
           [("/dataset/imagenet/train/n01440764/0.JPEG", 0)] demo_train_transform,
         Build_dataset "/dataset/imagenet/train" [] demo_valid_transform))
    by (vm_compute; reflexivity).
  split; [exact (conj H1 (conj H2 (conj H3 (conj H4 H5)))) |].
  exact (@build_datasets_returns demo _ _ _ _ _ _ _ _ H1 H2 H3 H4 H5).
Defined.
